(** * RecokrOCRParser: field extraction and validation engine

    A shallow embedding of the Python package [recokr_ocr_parser]
    (normalizer, preprocessor, parser, validator, pipeline) and the
    properties its specification states about it.

    Conventions of the embedding:
    - a Python [str] is the list of its Unicode code points ([str]);
      literals are written in UTF-8 and decoded by [u];
    - a Python [float] is a binary64 primitive float, with the operations and
      comparisons of IEEE 754 that CPython uses;
    - [Optional[T]] is [option T]; a mutable record or list that a function
      updates in place is passed in and returned. *)

From Stdlib Require Import String Ascii.
From Stdlib Require Import ZArith NArith List Bool Lia Floats.
Import ListNotations.

Set Warnings "-inexact-float".
Local Open Scope list_scope.

(** ** Python strings *)

Module Py.

Local Open Scope N_scope.

Definition char := N.
Definition str := list char.

(** Decoding of a UTF-8 literal into code points. *)
Fixpoint utf8_decode (bs : list N) : str :=
  match bs with
  | [] => []
  | b :: r =>
    if (b <? 128)%N then b :: utf8_decode r
    else if (b <? 224)%N then
      match r with
      | b1 :: r1 =>
        N.lor (N.shiftl (N.land b 31) 6) (N.land b1 63) :: utf8_decode r1
      | _ => []
      end
    else if (b <? 240)%N then
      match r with
      | b1 :: b2 :: r2 =>
        N.lor (N.shiftl (N.land b 15) 12)
          (N.lor (N.shiftl (N.land b1 63) 6) (N.land b2 63)) :: utf8_decode r2
      | _ => []
      end
    else
      match r with
      | b1 :: b2 :: b3 :: r3 =>
        N.lor (N.shiftl (N.land b 7) 18)
          (N.lor (N.shiftl (N.land b1 63) 12)
             (N.lor (N.shiftl (N.land b2 63) 6) (N.land b3 63))) :: utf8_decode r3
      | _ => []
      end
  end.

Definition u (s : string) : str :=
  utf8_decode (map N_of_ascii (list_ascii_of_string s)).
Arguments u s%_string.

Definition ch (s : string) : char := hd 0%N (u s).
Arguments ch s%_string.

(** [a == b] on strings. *)
Fixpoint str_eqb (a b : str) : bool :=
  match a, b with
  | [], [] => true
  | x :: a', y :: b' => (x =? y)%N && str_eqb a' b'
  | _, _ => false
  end.

(** [a < b] on strings: lexicographic on code points. *)
Fixpoint str_ltb (a b : str) : bool :=
  match a, b with
  | _, [] => false
  | [], _ :: _ => true
  | x :: a', y :: b' =>
    if (x <? y)%N then true else if (y <? x)%N then false else str_ltb a' b'
  end.

Definition one_of (cs : str) (c : char) : bool := existsb (N.eqb c) cs.

Definition in_range (lo hi c : char) : bool := (lo <=? c) && (c <=? hi).

(** [str.isspace] of one character, which is also the class [\s] of [re] on
    a [str] pattern. *)
Definition isspace (c : char) : bool :=
  in_range 9 13 c || in_range 28 32 c || one_of [133; 160; 5760] c
  || in_range 8192 8202 c || one_of [8232; 8233; 8239; 8287; 12288] c.

(** The decimal digits of Unicode (category Nd) come in runs of ten, zero
    first; each entry is the code point of a zero and the number of runs that
    follow each other from it. *)
Definition decimal_runs : list (N * N) :=
  [ (48, 1); (1632, 1); (1776, 1); (1984, 1); (2406, 1); (2534, 1); (2662, 1);
    (2790, 1); (2918, 1); (3046, 1); (3174, 1); (3302, 1); (3430, 1); (3558, 1);
    (3664, 1); (3792, 1); (3872, 1); (4160, 1); (4240, 1); (6112, 1); (6160, 1);
    (6470, 1); (6608, 1); (6784, 1); (6800, 1); (6992, 1); (7088, 1); (7232, 1);
    (7248, 1); (42528, 1); (43216, 1); (43264, 1); (43472, 1); (43504, 1);
    (43600, 1); (44016, 1); (65296, 1); (66720, 1); (68912, 1); (69734, 1);
    (69872, 1); (69942, 1); (70096, 1); (70384, 1); (70736, 1); (70864, 1);
    (71248, 1); (71360, 1); (71472, 1); (71904, 1); (72016, 1); (72784, 1);
    (73040, 1); (73120, 1); (92768, 1); (92864, 1); (93008, 1); (120782, 5);
    (123200, 1); (123632, 1); (125264, 1); (130032, 1) ].

(** The value of a decimal digit, [None] for any other character. *)
Definition decimal_value (c : char) : option N :=
  match find (fun r => (fst r <=? c) && (c <? fst r + 10 * snd r))%N decimal_runs with
  | Some r => Some ((c - fst r) mod 10)%N
  | None => None
  end.

(** [str.isdecimal] of one character, which is also the class [\d]. *)
Definition isdecimal (c : char) : bool :=
  match decimal_value c with Some _ => true | None => false end.




Definition ascii_digit (c : char) : bool := in_range 48 57 c.
Definition ascii_upper (c : char) : bool := in_range 65 90 c.
Definition ascii_lower (c : char) : bool := in_range 97 122 c.
(** The Hangul syllables, U+AC00 to U+D7A3. *)
Definition hangul (c : char) : bool := in_range 44032 55203 c.

(** [s.startswith(p)] *)
Fixpoint startswith (p s : str) : bool :=
  match p, s with
  | [], _ => true
  | x :: p', y :: s' => (x =? y)%N && startswith p' s'
  | _ :: _, [] => false
  end.

(** [s.endswith(p)] *)
Definition endswith (p s : str) : bool := startswith (rev p) (rev s).

(** [sub in s] *)
Fixpoint contains (sub s : str) : bool :=
  startswith sub s || match s with [] => false | _ :: s' => contains sub s' end.

(** [s.replace(old, new)]: occurrences of [old] are replaced from the left,
    without overlap. *)
Fixpoint replace_go (fuel : nat) (old new s : str) : str :=
  match fuel with
  | O => s
  | S fuel' =>
    match s with
    | [] => []
    | c :: s' =>
      if startswith old s
      then new ++ replace_go fuel' old new (skipn (length old) s)
      else c :: replace_go fuel' old new s'
    end
  end.

Definition replace (old new s : str) : str :=
  match old with
  | [] => new ++ flat_map (fun c => c :: new) s
  | _ => replace_go (length s) old new s
  end.

Definition lstrip_by (p : char -> bool) (s : str) : str :=
  (fix go (s : str) : str :=
     match s with
     | c :: s' => if p c then go s' else s
     | [] => []
     end) s.

Definition rstrip_by (p : char -> bool) (s : str) : str :=
  rev (lstrip_by p (rev s)).

(** [s.strip()] *)
Definition strip (s : str) : str := rstrip_by isspace (lstrip_by isspace s).

(** [s.lstrip(chars)] *)
Definition lstrip (chars s : str) : str := lstrip_by (one_of chars) s.

(** [s[a:b]] for [0 <= a] and [0 <= b]. *)
Definition slice (s : str) (a b : nat) : str := firstn (b - a)%nat (skipn a s).

(** [sep.join(parts)] *)
Fixpoint join (sep : str) (parts : list str) : str :=
  match parts with
  | [] => []
  | [p] => p
  | p :: rest => p ++ sep ++ join sep rest
  end.

(** [int(s)] for a run of decimal digits. *)
Definition int_of_digits (s : str) : Z :=
  fold_left
    (fun acc c => (10 * acc + Z.of_N (match decimal_value c with Some d => d | None => 0%N end))%Z)
    s 0%Z.

(** [str(n)] for an [int]. *)
Fixpoint digits_of_pos (fuel : nat) (n : N) (acc : str) : str :=
  match fuel with
  | O => acc
  | S fuel' =>
    let acc' := (48 + n mod 10)%N :: acc in
    if (n <? 10)%N then acc' else digits_of_pos fuel' (n / 10)%N acc'
  end.

Definition str_of_int (z : Z) : str :=
  let n := Z.abs_N z in
  let ds := digits_of_pos (S (N.to_nat (N.log2 n))) n [] in
  if (z <? 0)%Z then 45%N :: ds else ds.

(** [f"{n:02d}"] for a non-negative [int]. *)
Definition format_02d (z : Z) : str :=
  let ds := str_of_int z in
  match ds with
  | [_] => if (0 <=? z)%Z then 48%N :: ds else ds
  | _ => ds
  end.

End Py.
Export Py.

(** ** Python floats *)

Module PyFloat.

Local Open Scope float_scope.

(** [bool(x)]: every float but the two zeros is true. *)
Definition truthy (x : float) : bool := negb (x =? 0).

(** [min(a, b)] and [max(a, b)] of two floats: the first argument stays
    unless the second is strictly smaller (larger). *)
Definition min2 (a b : float) : float := if b <? a then b else a.
Definition max2 (a b : float) : float := if a <? b then b else a.

(** A float is a number (not a NaN) when it compares with itself. *)
Definition is_number (x : float) : bool := x =? x.


(** [float(n)] for an [int]: the nearest binary64 value, ties to even,
    infinite beyond the range. *)
Definition of_int (z : Z) : float :=
  SF2Prim (binary_normalize prec emax z 0 false).

(** The binary64 value nearest to [n / 10^k], negated when [neg]. *)
Definition of_decimal (neg : bool) (n : N) (k : nat) : float :=
  match n with
  | N0 => SF2Prim (S754_zero neg)
  | Npos m =>
    match k with
    | O => SF2Prim (binary_normalize prec emax (if neg then Zneg m else Zpos m) 0 false)
    | _ =>
      SF2Prim (SFdiv prec emax (S754_finite neg m 0)
                 (S754_finite false (Pos.pow 10 (Pos.of_nat k)) 0))
    end
  end.

(** [float(s)] on the strings the extractors hand to it: an optional sign, a
    run of decimal digits and an optional fraction. [None] stands for
    [ValueError]. The further syntax of [float] (exponents, [inf], [nan],
    blanks, underscores) cannot reach it from the patterns of this package. *)
Definition split_sign (s : str) : bool * str :=
  match s with
  | c :: r => if (c =? 45)%N then (true, r) else if (c =? 43)%N then (false, r) else (false, s)
  | [] => (false, [])
  end.

Definition of_str (s : str) : option float :=
  let '(neg, body) := split_sign s in
  let ip := (fix go (s : str) : str :=
               match s with c :: s' => if isdecimal c then c :: go s' else [] | [] => [] end) body in
  let rest := skipn (length ip) body in
  match ip with
  | [] => None
  | _ =>
    match rest with
    | [] => Some (of_decimal neg (Z.to_N (int_of_digits ip)) 0)
    | c :: fp =>
      if (c =? 46)%N then
        match fp with
        | [] => None
        | _ =>
          if forallb isdecimal fp
          then Some (of_decimal neg (Z.to_N (int_of_digits (ip ++ fp))) (length fp))
          else None
        end
      else None
    end
  end.

End PyFloat.

(** ** Regular expressions

    The fragment of Python's [re] that the package uses: literals and
    character classes, greedy repetition of a class, greedy optional parts,
    capturing groups and [$]. [re] is a backtracking matcher: the
    alternatives of a pattern are tried in a fixed order (a greedy repetition
    tries the longest run first) and the first complete match wins.
    [alternatives] lists the complete matches in that order. *)

Module Re.

Inductive regex : Type :=
| Eps
| Chr (p : char -> bool)
| Cat (a b : regex)
| Rep (p : char -> bool) (lo : nat) (hi : option nat)
| Opt (a : regex)
| Grp (n : nat) (a : regex)
| Eos.

(** A position in the subject with the text still ahead of it, and the
    groups closed so far (the latest first). *)
Record mstate : Type := MState {
  pos : nat;
  rest : str;
  caps : list (nat * (nat * nat))
}.

Definition advance (k : nat) (st : mstate) : mstate :=
  MState (pos st + k) (skipn k (rest st)) (caps st).

Definition close_group (n from : nat) (st : mstate) : mstate :=
  MState (pos st) (rest st) ((n, (from, pos st)) :: caps st).

(** Length of the longest run of [p] at the head of [s], at most [hi]. *)
Fixpoint run_length (p : char -> bool) (hi : option nat) (s : str) : nat :=
  match s with
  | c :: s' =>
    if p c then
      match hi with
      | Some O => O
      | Some (S h) => S (run_length p (Some h) s')
      | None => S (run_length p None s')
      end
    else O
  | [] => O
  end.

(** [n; n-1; ...; lo] *)
Definition down_to (n lo : nat) : list nat := rev (seq lo (S n - lo)).

Fixpoint alternatives (r : regex) (st : mstate) : list mstate :=
  match r with
  | Eps => [st]
  | Chr p =>
    match rest st with
    | c :: _ => if p c then [advance 1 st] else []
    | [] => []
    end
  | Cat a b => flat_map (alternatives b) (alternatives a st)
  | Rep p lo hi =>
    map (fun k => advance k st) (down_to (run_length p hi (rest st)) lo)
  | Opt a => alternatives a st ++ [st]
  | Grp n a => map (close_group n (pos st)) (alternatives a st)
  | Eos =>
    match rest st with
    | [] => [st]
    | [c] => if (c =? 10)%N then [st] else []
    | _ => []
    end
  end.

(** A match object: [start()], [end()] and the spans of its groups. *)
Record rmatch : Type := RMatch {
  m_start : nat;
  m_end : nat;
  m_caps : list (nat * (nat * nat))
}.

Definition first_at (r : regex) (at_pos : nat) (s : str) : option rmatch :=
  match alternatives r (MState at_pos s []) with
  | st :: _ => Some (RMatch at_pos (pos st) (caps st))
  | [] => None
  end.

(** [re.match(r, text)] *)
Definition match_ (r : regex) (text : str) : option rmatch := first_at r 0 text.

(** The leftmost match at or after a position; [s] is the text from there. *)
Fixpoint search_from (r : regex) (at_pos : nat) (s : str) : option rmatch :=
  match first_at r at_pos s with
  | Some m => Some m
  | None =>
    match s with
    | [] => None
    | _ :: s' => search_from r (S at_pos) s'
    end
  end.

(** [re.search(r, text)] *)
Definition search (r : regex) (text : str) : option rmatch := search_from r 0 text.

Definition span (m : rmatch) (n : nat) : option (nat * nat) :=
  option_map snd (find (fun c => Nat.eqb (fst c) n) (m_caps m)).

(** [m.group(n)]; a group that took no part in the match is [None]. *)
Definition group (text : str) (m : rmatch) (n : nat) : option str :=
  option_map (fun se => slice text (fst se) (snd se)) (span m n).

(** [m.group(0)] *)
Definition group0 (text : str) (m : rmatch) : str := slice text (m_start m) (m_end m).

(** The matches of [finditer], left to right and without overlap. Every
    pattern used with it here consumes at least one character. *)
Fixpoint finditer_from (fuel : nat) (r : regex) (at_pos : nat) (s : str) : list rmatch :=
  match fuel with
  | O => []
  | S fuel' =>
    match search_from r at_pos s with
    | None => []
    | Some m =>
      let next := Nat.max (m_end m) (S (m_start m)) in
      m :: finditer_from fuel' r next (skipn (next - at_pos) s)
    end
  end.

Definition finditer (r : regex) (text : str) : list rmatch :=
  finditer_from (S (length text)) r 0 text.

(** [re.sub(r, repl, text)] for a replacement without group references. *)
Fixpoint sub_go (repl text : str) (at_pos : nat) (ms : list rmatch) : str :=
  match ms with
  | [] => skipn at_pos text
  | m :: ms' => slice text at_pos (m_start m) ++ repl ++ sub_go repl text (m_end m) ms'
  end.

Definition sub (r : regex) (repl text : str) : str :=
  sub_go repl text 0 (finditer r text).



(** A literal string: its characters in a row. *)
Fixpoint lit (s : str) : regex :=
  match s with
  | [] => Eps
  | [c] => Chr (N.eqb c)
  | c :: s' => Cat (Chr (N.eqb c)) (lit s')
  end.

Definition star (p : char -> bool) : regex := Rep p 0 None.
Definition plus (p : char -> bool) : regex := Rep p 1 None.
Definition times (p : char -> bool) (n : nat) : regex := Rep p n (Some n).
Definition between (p : char -> bool) (lo hi : nat) : regex := Rep p lo (Some hi).

(** [a b c ...] *)
Fixpoint cat (rs : list regex) : regex :=
  match rs with
  | [] => Eps
  | [r] => r
  | r :: rs' => Cat r (cat rs')
  end.

End Re.

(** The classes that the patterns are written with. *)
Definition d : char -> bool := isdecimal.
Definition s_ : char -> bool := isspace.
Definition c_ (x : string) : char -> bool := N.eqb (ch x).
Arguments c_ x%_string.
Definition any_of (x : string) : char -> bool := one_of (u x).
Arguments any_of x%_string.
Definition orc (p q : char -> bool) : char -> bool := fun c => p c || q c.

(** ** Data model (schema.py) *)

(** What the package does not define itself: the text of a float inside a
    formatted message ([str] of a [float]) and [difflib]'s
    [SequenceMatcher(None, a, b).ratio()]. *)
Class PyLib : Type := {
  float_repr : float -> str;
  SequenceMatcher_ratio : str -> str -> float
}.

Inductive WarningSeverity : Type := INFO | WARN | ERROR.

(** The values a warning context holds. *)
Inductive value : Type :=
| VStr (s : str)
| VInt (z : Z)
| VFloat (f : float).

(** A [dict] with [str] keys, in insertion order. *)
Definition dict : Type := list (str * value).

Record Warning : Type := Build_Warning {
  code : str;
  severity : WarningSeverity;
  message : str;
  context : option dict
}.

Record ParsedRecord : Type := Build_ParsedRecord {
  doc_type : str;
  weigh_date : option str;
  weigh_time_in : option str;
  weigh_time_out : option str;
  serial_no : option str;
  vehicle_no : option str;
  partner_name : option str;
  item_name : option str;
  direction : option str;
  gross_weight_kg : option float;
  tare_weight_kg : option float;
  net_weight_kg : option float;
  deduction_weight_kg : option float;
  issuer : option str;
  timestamp : option str;
  gps : option (float * float);
  raw_text : str;
  parse_confidence : float;
  warnings : list Warning
}.

(** [ParsedRecord()] *)
Definition empty_record : ParsedRecord :=
  Build_ParsedRecord (u "unknown") None None None None None None None None None None None
    None None None None [] 0%float [].

(** Assignment to one attribute of a record. *)
Definition set_doc_type (v : str) (r : ParsedRecord) : ParsedRecord :=
  Build_ParsedRecord v (weigh_date r) (weigh_time_in r) (weigh_time_out r) (serial_no r)
    (vehicle_no r) (partner_name r) (item_name r) (direction r) (gross_weight_kg r)
    (tare_weight_kg r) (net_weight_kg r) (deduction_weight_kg r) (issuer r) (timestamp
    r) (gps r) (raw_text r) (parse_confidence r) (warnings r).

Definition set_weigh_date (v : option str) (r : ParsedRecord) : ParsedRecord :=
  Build_ParsedRecord (doc_type r) v (weigh_time_in r) (weigh_time_out r) (serial_no r)
    (vehicle_no r) (partner_name r) (item_name r) (direction r) (gross_weight_kg r)
    (tare_weight_kg r) (net_weight_kg r) (deduction_weight_kg r) (issuer r) (timestamp
    r) (gps r) (raw_text r) (parse_confidence r) (warnings r).

Definition set_weigh_time_in (v : option str) (r : ParsedRecord) : ParsedRecord :=
  Build_ParsedRecord (doc_type r) (weigh_date r) v (weigh_time_out r) (serial_no r)
    (vehicle_no r) (partner_name r) (item_name r) (direction r) (gross_weight_kg r)
    (tare_weight_kg r) (net_weight_kg r) (deduction_weight_kg r) (issuer r) (timestamp
    r) (gps r) (raw_text r) (parse_confidence r) (warnings r).

Definition set_weigh_time_out (v : option str) (r : ParsedRecord) : ParsedRecord :=
  Build_ParsedRecord (doc_type r) (weigh_date r) (weigh_time_in r) v (serial_no r)
    (vehicle_no r) (partner_name r) (item_name r) (direction r) (gross_weight_kg r)
    (tare_weight_kg r) (net_weight_kg r) (deduction_weight_kg r) (issuer r) (timestamp
    r) (gps r) (raw_text r) (parse_confidence r) (warnings r).

Definition set_serial_no (v : option str) (r : ParsedRecord) : ParsedRecord :=
  Build_ParsedRecord (doc_type r) (weigh_date r) (weigh_time_in r) (weigh_time_out r) v
    (vehicle_no r) (partner_name r) (item_name r) (direction r) (gross_weight_kg r)
    (tare_weight_kg r) (net_weight_kg r) (deduction_weight_kg r) (issuer r) (timestamp
    r) (gps r) (raw_text r) (parse_confidence r) (warnings r).

Definition set_vehicle_no (v : option str) (r : ParsedRecord) : ParsedRecord :=
  Build_ParsedRecord (doc_type r) (weigh_date r) (weigh_time_in r) (weigh_time_out r)
    (serial_no r) v (partner_name r) (item_name r) (direction r) (gross_weight_kg r)
    (tare_weight_kg r) (net_weight_kg r) (deduction_weight_kg r) (issuer r) (timestamp
    r) (gps r) (raw_text r) (parse_confidence r) (warnings r).

Definition set_partner_name (v : option str) (r : ParsedRecord) : ParsedRecord :=
  Build_ParsedRecord (doc_type r) (weigh_date r) (weigh_time_in r) (weigh_time_out r)
    (serial_no r) (vehicle_no r) v (item_name r) (direction r) (gross_weight_kg r)
    (tare_weight_kg r) (net_weight_kg r) (deduction_weight_kg r) (issuer r) (timestamp
    r) (gps r) (raw_text r) (parse_confidence r) (warnings r).

Definition set_item_name (v : option str) (r : ParsedRecord) : ParsedRecord :=
  Build_ParsedRecord (doc_type r) (weigh_date r) (weigh_time_in r) (weigh_time_out r)
    (serial_no r) (vehicle_no r) (partner_name r) v (direction r) (gross_weight_kg r)
    (tare_weight_kg r) (net_weight_kg r) (deduction_weight_kg r) (issuer r) (timestamp
    r) (gps r) (raw_text r) (parse_confidence r) (warnings r).

Definition set_direction (v : option str) (r : ParsedRecord) : ParsedRecord :=
  Build_ParsedRecord (doc_type r) (weigh_date r) (weigh_time_in r) (weigh_time_out r)
    (serial_no r) (vehicle_no r) (partner_name r) (item_name r) v (gross_weight_kg r)
    (tare_weight_kg r) (net_weight_kg r) (deduction_weight_kg r) (issuer r) (timestamp
    r) (gps r) (raw_text r) (parse_confidence r) (warnings r).

Definition set_gross_weight_kg (v : option float) (r : ParsedRecord) : ParsedRecord :=
  Build_ParsedRecord (doc_type r) (weigh_date r) (weigh_time_in r) (weigh_time_out r)
    (serial_no r) (vehicle_no r) (partner_name r) (item_name r) (direction r) v
    (tare_weight_kg r) (net_weight_kg r) (deduction_weight_kg r) (issuer r) (timestamp
    r) (gps r) (raw_text r) (parse_confidence r) (warnings r).

Definition set_tare_weight_kg (v : option float) (r : ParsedRecord) : ParsedRecord :=
  Build_ParsedRecord (doc_type r) (weigh_date r) (weigh_time_in r) (weigh_time_out r)
    (serial_no r) (vehicle_no r) (partner_name r) (item_name r) (direction r)
    (gross_weight_kg r) v (net_weight_kg r) (deduction_weight_kg r) (issuer r)
    (timestamp r) (gps r) (raw_text r) (parse_confidence r) (warnings r).

Definition set_net_weight_kg (v : option float) (r : ParsedRecord) : ParsedRecord :=
  Build_ParsedRecord (doc_type r) (weigh_date r) (weigh_time_in r) (weigh_time_out r)
    (serial_no r) (vehicle_no r) (partner_name r) (item_name r) (direction r)
    (gross_weight_kg r) (tare_weight_kg r) v (deduction_weight_kg r) (issuer r)
    (timestamp r) (gps r) (raw_text r) (parse_confidence r) (warnings r).

Definition set_deduction_weight_kg (v : option float) (r : ParsedRecord) : ParsedRecord :=
  Build_ParsedRecord (doc_type r) (weigh_date r) (weigh_time_in r) (weigh_time_out r)
    (serial_no r) (vehicle_no r) (partner_name r) (item_name r) (direction r)
    (gross_weight_kg r) (tare_weight_kg r) (net_weight_kg r) v (issuer r) (timestamp r)
    (gps r) (raw_text r) (parse_confidence r) (warnings r).

Definition set_issuer (v : option str) (r : ParsedRecord) : ParsedRecord :=
  Build_ParsedRecord (doc_type r) (weigh_date r) (weigh_time_in r) (weigh_time_out r)
    (serial_no r) (vehicle_no r) (partner_name r) (item_name r) (direction r)
    (gross_weight_kg r) (tare_weight_kg r) (net_weight_kg r) (deduction_weight_kg r) v
    (timestamp r) (gps r) (raw_text r) (parse_confidence r) (warnings r).

Definition set_timestamp (v : option str) (r : ParsedRecord) : ParsedRecord :=
  Build_ParsedRecord (doc_type r) (weigh_date r) (weigh_time_in r) (weigh_time_out r)
    (serial_no r) (vehicle_no r) (partner_name r) (item_name r) (direction r)
    (gross_weight_kg r) (tare_weight_kg r) (net_weight_kg r) (deduction_weight_kg r)
    (issuer r) v (gps r) (raw_text r) (parse_confidence r) (warnings r).

Definition set_gps (v : option (float * float)) (r : ParsedRecord) : ParsedRecord :=
  Build_ParsedRecord (doc_type r) (weigh_date r) (weigh_time_in r) (weigh_time_out r)
    (serial_no r) (vehicle_no r) (partner_name r) (item_name r) (direction r)
    (gross_weight_kg r) (tare_weight_kg r) (net_weight_kg r) (deduction_weight_kg r)
    (issuer r) (timestamp r) v (raw_text r) (parse_confidence r) (warnings r).

Definition set_raw_text (v : str) (r : ParsedRecord) : ParsedRecord :=
  Build_ParsedRecord (doc_type r) (weigh_date r) (weigh_time_in r) (weigh_time_out r)
    (serial_no r) (vehicle_no r) (partner_name r) (item_name r) (direction r)
    (gross_weight_kg r) (tare_weight_kg r) (net_weight_kg r) (deduction_weight_kg r)
    (issuer r) (timestamp r) (gps r) v (parse_confidence r) (warnings r).

Definition set_parse_confidence (v : float) (r : ParsedRecord) : ParsedRecord :=
  Build_ParsedRecord (doc_type r) (weigh_date r) (weigh_time_in r) (weigh_time_out r)
    (serial_no r) (vehicle_no r) (partner_name r) (item_name r) (direction r)
    (gross_weight_kg r) (tare_weight_kg r) (net_weight_kg r) (deduction_weight_kg r)
    (issuer r) (timestamp r) (gps r) (raw_text r) v (warnings r).

Definition set_warnings (v : list Warning) (r : ParsedRecord) : ParsedRecord :=
  Build_ParsedRecord (doc_type r) (weigh_date r) (weigh_time_in r) (weigh_time_out r)
    (serial_no r) (vehicle_no r) (partner_name r) (item_name r) (direction r)
    (gross_weight_kg r) (tare_weight_kg r) (net_weight_kg r) (deduction_weight_kg r)
    (issuer r) (timestamp r) (gps r) (raw_text r) (parse_confidence r) v.


(** ** Dictionaries and comparison of their values *)

Fixpoint dict_get (k : str) (dc : dict) : option value :=
  match dc with
  | [] => None
  | (k', v) :: dc' => if str_eqb k' k then Some v else dict_get k dc'
  end.

(** [dc.setdefault(k, v)], for its effect on [dc]. *)
Definition setdefault (k : str) (v : value) (dc : dict) : dict :=
  match dict_get k dc with
  | Some _ => dc
  | None => dc ++ [(k, v)]
  end.

(** [x == n] for a float and an int: equal as real numbers. *)
Definition float_eq_int (x : float) (n : Z) : bool :=
  match Prim2SF x with
  | S754_zero _ => (n =? 0)%Z
  | S754_finite sg m e =>
    let v := if sg then Zneg m else Zpos m in
    if (0 <=? e)%Z then (n =? v * 2 ^ e)%Z
    else ((v mod 2 ^ (- e) =? 0) && (n =? v / 2 ^ (- e)))%Z
  | _ => false
  end.

(** Equality of two items of a tuple: the same object, or [==]. Floats with
    the same bits stand for the same object. *)
Definition value_eqb (a b : value) : bool :=
  match a, b with
  | VStr x, VStr y => str_eqb x y
  | VInt x, VInt y => (x =? y)%Z
  | VFloat x, VFloat y => (x =? y)%float || PrimFloat.Leibniz.eqb x y
  | VInt n, VFloat x | VFloat x, VInt n => float_eq_int x n
  | _, _ => false
  end.

(** [bool(v)] *)
Definition value_truthy (v : value) : bool :=
  match v with
  | VStr s => match s with [] => false | _ => true end
  | VInt z => negb (z =? 0)%Z
  | VFloat x => PyFloat.truthy x
  end.

(** [sorted(dc.items())]: the keys of a dict differ, so the order of the
    pairs is the order of their keys. *)
Fixpoint insert_item (kv : str * value) (l : list (str * value)) : list (str * value) :=
  match l with
  | [] => [kv]
  | kv' :: l' => if str_ltb (fst kv) (fst kv') then kv :: l else kv' :: insert_item kv l'
  end.

Definition sorted_items (dc : dict) : list (str * value) :=
  fold_left (fun acc kv => insert_item kv acc) dc [].

Fixpoint items_eqb (a b : list (str * value)) : bool :=
  match a, b with
  | [], [] => true
  | (k, v) :: a', (k', v') :: b' => str_eqb k k' && value_eqb v v' && items_eqb a' b'
  | _, _ => false
  end.

(** ** Configuration (constants.py) *)

Definition WARNING_CODE_MAP : list (str * str) :=
  [ (u "input_json_fallback", u "INP-FMT-001");
    (u "missing_pages_and_text", u "INP-MISS-002");
    (u "noise_lines_removed", u "PRE-CHK-001");
    (u "label_empty_value", u "PRS-MISS-001");
    (u "gross_inferred_from_time_weight", u "PRS-MAP-001");
    (u "tare_inferred_from_time_weight", u "PRS-MAP-002");
    (u "net_inferred_from_gross_tare", u "VAL-CHK-002");
    (u "net_mismatch", u "VAL-CHK-001");
    (u "time_order_reversed", u "VAL-CHK-003");
    (u "negative_weight", u "VAL-CHK-004");
    (u "weight_exceeds_limit", u "VAL-CHK-005") ].

Module ValidationThresholds.
Definition NET_WEIGHT_TOLERANCE_KG : float := 1.0.
Definition MAX_WEIGHT_KG : float := 100000.0.
Definition MIN_WEIGHT_KG : float := 0.0.
End ValidationThresholds.

Module ConfidenceWeights.
Definition LABEL_INFERENCE : float := 0.05.
Definition FIELD_MISSING : float := 0.05.
Definition LOGIC_MISMATCH : float := 0.1.
Definition NET_CALC_INFERENCE : float := 0.03.
End ConfidenceWeights.

(** [table.get(k)] on a table of strings. *)
Fixpoint table_get (k : str) (t : list (str * str)) : option str :=
  match t with
  | [] => None
  | (k', v) :: t' => if str_eqb k' k then Some v else table_get k t'
  end.

(** ** Validator and finalizer (validator.py) *)

Import Re.

(** The key of a warning: its code and its sorted context items. *)
Definition warning_key : Type := str * option (list (str * value)).

Definition _warning_key (warning : Warning) : warning_key :=
  match context warning with
  | None => (code warning, None)
  | Some dc => (code warning, Some (sorted_items dc))
  end.

(** [k1 == k2] on keys. *)
Definition key_eqb (k1 k2 : warning_key) : bool :=
  str_eqb (fst k1) (fst k2) &&
  match snd k1, snd k2 with
  | None, None => true
  | Some a, Some b => items_eqb a b
  | _, _ => false
  end.

(** [^[A-Z]{3}-[A-Z]{3}-\d{3}$] *)
Definition STANDARD_CODE_PATTERN : regex :=
  cat [times ascii_upper 3; Chr (c_ "-"); times ascii_upper 3; Chr (c_ "-"); times d 3; Eos].

Definition _standardize_warning_code (code : str) : str :=
  match match_ STANDARD_CODE_PATTERN code with
  | Some _ => code
  | None =>
    match table_get code WARNING_CODE_MAP with
    | Some standardized => standardized
    | None => code
    end
  end.

Section Validator.

Context {py : PyLib}.

(** A value inside an f-string. *)
Definition format_value (v : value) : str :=
  match v with
  | VStr s => s
  | VInt z => str_of_int z
  | VFloat x => float_repr x
  end.

Definition _default_warning_info (code : str) (context : dict) : WarningSeverity * str :=
  if str_eqb code (u "noise_lines_removed") then
    match dict_get (u "count") context with
    | Some count => (INFO, u "노이즈 라인 " ++ format_value count ++ u "개 제거")
    | None => (INFO, u "노이즈 라인 제거")
    end
  else if str_eqb code (u "input_json_fallback") then
    (WARN, u "입력 JSON 파싱 실패로 텍스트 기반 파싱 수행")
  else if str_eqb code (u "missing_pages_and_text") then
    (ERROR, u "입력에 pages/text가 없어 라인 추출 실패")
  else if str_eqb code (u "label_empty_value") then
    match dict_get (u "label") context with
    | Some label =>
      if value_truthy label then (WARN, u "라벨 값 누락: " ++ format_value label)
      else (WARN, u "라벨 값 누락")
    | None => (WARN, u "라벨 값 누락")
    end
  else if str_eqb code (u "gross_inferred_from_time_weight") then
    (WARN, u "총중량을 시간/무게 패턴으로 추정")
  else if str_eqb code (u "tare_inferred_from_time_weight") then
    (WARN, u "공차중량을 시간/무게 패턴으로 추정")
  else if str_eqb code (u "net_inferred_from_gross_tare") then
    (WARN, u "실중량을 총/공차 차이로 계산")
  else if str_eqb code (u "net_mismatch") then
    (ERROR, u "총중량-공차중량과 실중량 불일치")
  else if str_eqb code (u "time_order_reversed") then
    match dict_get (u "time_in") context, dict_get (u "time_out") context with
    | Some time_in, Some time_out =>
      if value_truthy time_in && value_truthy time_out
      then (WARN, u "입차 시간이 출차 시간보다 늦음: "
                    ++ format_value time_in ++ u ">" ++ format_value time_out)
      else (WARN, u "입차/출차 시간 순서 이상")
    | _, _ => (WARN, u "입차/출차 시간 순서 이상")
    end
  else if str_eqb code (u "negative_weight") then
    let field := match dict_get (u "field") context with Some f => f | None => VStr (u "unknown") end in
    (ERROR, u "음수 무게 감지: " ++ format_value field)
  else if str_eqb code (u "weight_exceeds_limit") then
    let field := match dict_get (u "field") context with Some f => f | None => VStr (u "unknown") end in
    (WARN, u "무게 범위 초과: " ++ format_value field)
  else (WARN, code).

(** The warning that [add_warning] builds from its arguments. *)
Definition make_warning (code : str) (context : option dict)
    (severity : option WarningSeverity) (message : option str) : Warning :=
  let context := match context with Some dc => dc | None => [] end in
  let '(severity, message) :=
    match severity, message with
    | Some sv, Some msg => (sv, msg)
    | _, _ =>
      let '(default_severity, default_message) := _default_warning_info code context in
      (match severity with Some sv => sv | None => default_severity end,
       match message with Some (_ :: _ as msg) => msg | _ => default_message end)
    end in
  let standardized := _standardize_warning_code code in
  let context :=
    if negb (str_eqb standardized code)
    then setdefault (u "legacy_code") (VStr code) context
    else context in
  Build_Warning standardized severity message
    (match context with [] => None | _ => Some context end).

(** The list is updated in place in the source; here the updated list is
    returned. *)
Definition add_warning (warnings : list Warning) (code : str) (context : option dict)
    (severity : option WarningSeverity) (message : option str) : list Warning :=
  let warning := make_warning code context severity message in
  let candidate_key := _warning_key warning in
  if forallb (fun existing => negb (key_eqb (_warning_key existing) candidate_key)) warnings
  then warnings ++ [warning]
  else warnings.

Definition has_warning (warnings : list Warning) (code : str) : bool :=
  let standardized := _standardize_warning_code code in
  existsb
    (fun warning =>
       let 'Build_Warning warning_code _ _ warning_context := warning in
       str_eqb warning_code standardized ||
       match warning_context with
       | Some ((_ :: _) as dc) =>
         match dict_get (u "legacy_code") dc with
         | Some (VStr legacy) => str_eqb legacy code
         | _ => false
         end
       | _ => false
       end)
    warnings.

(** [bool(x)] for an optional float: set and not zero. *)
Definition float_set_and_nonzero (x : option float) : bool :=
  match x with Some v => PyFloat.truthy v | None => false end.

(** [bool(x)] for an optional string: set and not empty. *)
Definition str_set_and_nonempty (x : option str) : bool :=
  match x with Some (_ :: _) => true | _ => false end.

Definition weight_fields (record : ParsedRecord) : list (str * option float) :=
  [ (u "gross_weight_kg", gross_weight_kg record);
    (u "tare_weight_kg", tare_weight_kg record);
    (u "net_weight_kg", net_weight_kg record);
    (u "deduction_weight_kg", deduction_weight_kg record) ].

(** The body of the loop of [validate_weights] for one field. *)
Definition validate_weight (warnings : list Warning) (field : str * option float)
    : list Warning :=
  let '(field_name, value) := field in
  match value with
  | None => warnings
  | Some value =>
    let warnings :=
      if (value <? ValidationThresholds.MIN_WEIGHT_KG)%float
      then add_warning warnings (u "negative_weight")
             (Some [(u "field", VStr field_name); (u "value", VFloat value)])
             (Some ERROR) None
      else warnings in
    if (ValidationThresholds.MAX_WEIGHT_KG <? value)%float
    then add_warning warnings (u "weight_exceeds_limit")
           (Some [(u "field", VStr field_name); (u "value", VFloat value)])
           (Some WARN) None
    else warnings
  end.

Definition validate_weights (record : ParsedRecord) (warnings : list Warning)
    : list Warning :=
  fold_left validate_weight (weight_fields record) warnings.

Definition validate_time_order (record : ParsedRecord) (warnings : list Warning)
    : list Warning :=
  match weigh_time_in record, weigh_time_out record with
  | Some ((_ :: _) as time_in), Some ((_ :: _) as time_out) =>
    if str_ltb time_out time_in
    then add_warning warnings (u "time_order_reversed")
           (Some [(u "time_in", VStr time_in); (u "time_out", VStr time_out)]) None None
    else warnings
  | _, _ => warnings
  end.

(** Lines 103 to 105: the net weight is inferred. *)
Definition infer_net (record : ParsedRecord) (warnings : list Warning)
    : ParsedRecord * list Warning :=
  match net_weight_kg record, gross_weight_kg record, tare_weight_kg record with
  | None, Some gross, Some tare =>
    if PyFloat.truthy gross && PyFloat.truthy tare
    then (set_net_weight_kg (Some (gross - tare)%float) record,
          add_warning warnings (u "net_inferred_from_gross_tare") None None None)
    else (record, warnings)
  | _, _, _ => (record, warnings)
  end.

(** Lines 107 to 116: the three weights are checked against each other. *)
Definition check_net (record : ParsedRecord) (warnings : list Warning) : list Warning :=
  match net_weight_kg record, gross_weight_kg record, tare_weight_kg record with
  | Some net, Some gross, Some tare =>
    if (ValidationThresholds.NET_WEIGHT_TOLERANCE_KG <? abs (gross - tare - net))%float
    then add_warning warnings (u "net_mismatch") None None None
    else warnings
  | _, _, _ => warnings
  end.

(** Lines 120 to 139: the confidence of a record with its final warnings. *)
Definition confidence_of (record : ParsedRecord) (warnings : list Warning) : float :=
  let confidence := 1.0%float in
  let confidence :=
    if has_warning warnings (u "gross_inferred_from_time_weight")
    then (confidence - ConfidenceWeights.LABEL_INFERENCE)%float else confidence in
  let confidence :=
    if has_warning warnings (u "tare_inferred_from_time_weight")
    then (confidence - ConfidenceWeights.LABEL_INFERENCE)%float else confidence in
  let confidence :=
    if has_warning warnings (u "net_inferred_from_gross_tare")
    then (confidence - ConfidenceWeights.NET_CALC_INFERENCE)%float else confidence in
  let confidence :=
    if has_warning warnings (u "net_mismatch")
    then (confidence - ConfidenceWeights.LOGIC_MISMATCH)%float else confidence in
  let confidence :=
    match partner_name record with
    | None => (confidence - ConfidenceWeights.FIELD_MISSING)%float
    | Some _ => confidence
    end in
  let confidence :=
    match item_name record with
    | None => (confidence - ConfidenceWeights.FIELD_MISSING)%float
    | Some _ => confidence
    end in
  let confidence :=
    match timestamp record with
    | None => (confidence - ConfidenceWeights.FIELD_MISSING)%float
    | Some _ => confidence
    end in
  PyFloat.max2 0.0 (PyFloat.min2 1.0 confidence).

Definition finalize_record (record : ParsedRecord) (warnings : list Warning) : ParsedRecord :=
  let warnings := validate_weights record warnings in
  let warnings := validate_time_order record warnings in
  let '(record, warnings) := infer_net record warnings in
  let warnings := check_net record warnings in
  let record := set_warnings warnings record in
  set_parse_confidence (confidence_of record warnings) record.

End Validator.

(** ** Configuration of the parser (constants.py) *)

Definition LABELS : list (str * list str) :=
  [ (u "date", [u "계량일자"; u "일자"; u "일시"; u "날짜"; u "계량 일자"]);
    (u "serial", [u "일련번호"; u "계량횟수"; u "전표번호"; u "ID-NO"; u "IDNO"; u "ID NO"]);
    (u "vehicle", [u "차량번호"; u "차번호"; u "차량No"; u "차량NO"; u "차량 No"; u "차량 NO"]);
    (u "partner", [u "거래처"; u "상호"; u "수신처"; u "회사명"; u "회 사 명"]);
    (u "item", [u "품명"; u "제품명"; u "품 명"; u "제 품 명"]);
    (u "direction", [u "구분"; u "구 분"]);
    (u "gross", [u "총중량"; u "총 중량"]);
    (u "tare", [u "공차중량"; u "차중량"; u "공 차 중 량"; u "차 중 량"]);
    (u "net", [u "실중량"; u "실 중 량"]);
    (u "deduction", [u "감량"; u "감 량"]) ].

(** [LABELS[key]] *)
Definition labels (key : string) : list str :=
  match find (fun kv => str_eqb (fst kv) (u key)) LABELS with
  | Some kv => snd kv
  | None => []
  end.
Arguments labels key%_string.

Definition DOC_TYPES : list (str * list str) :=
  [ (u "계량증명서", [u "계량증명서"; u "계량 증명서"]);
    (u "계량증명표", [u "계량증명표"; u "계량 증명 표"; u "계량 증명표"]);
    (u "계량표", [u "계량표"; u "계 량 표"; u "계그표"]);
    (u "계량확인서", [u "계량확인서"; u "계량 확인서"; u "계 량 확 인 서"]) ].

Definition DIRECTION_IN : str := u "입고".
Definition DIRECTION_OUT : str := u "출고".

Definition DIRECTION_KEYWORDS : list (str * list str) :=
  [ (DIRECTION_IN, [u "입고"; u "반입"]);
    (DIRECTION_OUT, [u "출고"; u "반출"]) ].

Definition DIRECTION_COMPACT_MAP : list (str * str) := [ (u "출", DIRECTION_OUT) ].

Definition SALUTATION_KEYWORDS : list str := [u "귀하"].

Definition NOISE_COMPACT_TOKENS : list str := [[]; u "N"; u "없다"].

Definition LABEL_FUZZY_THRESHOLD : float := 0.85.

Module FuzzyMatchingThresholds.
Definition SHORT_LABEL_THRESHOLD : float := 0.66.
Definition SHORT_LABEL_LENGTH : nat := 3.
End FuzzyMatchingThresholds.

Definition DOC_TYPE_PREFIX_MAP : list (str * str) := [ (u "계그표", u "계량표") ].

Definition ISSUER_CORP_MARKERS : list str := [u "(주)"].
Definition ISSUER_EXCLUDE_CONTAINS : list str := [u "경기도"].
Definition ISSUER_SKIP_CONTAINS : list str := [u "계량하였음을"; u "증명"].

(** ** Normalizer (normalizer.py) *)

(** The class [[0-9A-Za-z가-힣]]. *)
Definition alnum_hangul (c : char) : bool :=
  ascii_digit c || ascii_upper c || ascii_lower c || hangul c.

Definition normalize_spaces (text : str) : str :=
  strip (sub (plus s_) (u " ") text).

Definition compact_text (text : str) : str :=
  sub (Chr (fun c => negb (alnum_hangul c))) [] text.

(** The characters of the label without its blanks, with [\s*] between
    them. *)
Fixpoint spaced (chars : str) : regex :=
  match chars with
  | [] => Eps
  | [c] => Chr (N.eqb c)
  | c :: rest => Cat (Chr (N.eqb c)) (Cat (star s_) (spaced rest))
  end.

Definition build_label_regex (label : str) : regex :=
  spaced (replace (u " ") [] label).

(** The characters kept, each with its index in the text. *)
Fixpoint compact_from (idx : nat) (text : str) : list (char * nat) :=
  match text with
  | [] => []
  | c :: text' =>
    if alnum_hangul c then (c, idx) :: compact_from (S idx) text'
    else compact_from (S idx) text'
  end.

Definition _compact_with_index_map (text : str) : str * list nat :=
  let kept := compact_from 0 text in (map fst kept, map snd kept).

Section Fuzzy.

Context {py : PyLib}.

(** The body of the loop of [_fuzzy_label_span]: the state is
    [(best_score, best_start)]. *)
Definition fuzzy_step (compacted_text compact_label : str) (label_len : nat)
    (state : float * option nat) (start : nat) : float * option nat :=
  let window := slice compacted_text start (start + label_len) in
  match window, compact_label with
  | w0 :: _, l0 :: _ =>
    if negb (w0 =? l0)%N then state
    else
      let score := SequenceMatcher_ratio compact_label window in
      if (fst state <? score)%float then (score, Some start) else state
  | _, _ =>
    let score := SequenceMatcher_ratio compact_label window in
    if (fst state <? score)%float then (score, Some start) else state
  end.

Definition fuzzy_threshold (label_len : nat) : float :=
  if Nat.leb label_len FuzzyMatchingThresholds.SHORT_LABEL_LENGTH
  then FuzzyMatchingThresholds.SHORT_LABEL_THRESHOLD
  else LABEL_FUZZY_THRESHOLD.

Definition _fuzzy_label_span (text label : str) : option (nat * nat) :=
  let '(compacted_text, index_map) := _compact_with_index_map text in
  let compact_label := compact_text label in
  let label_len := length compact_label in
  if Nat.eqb label_len 0 || Nat.ltb (length compacted_text) label_len then None
  else
    let '(best_score, best_start) :=
      fold_left (fuzzy_step compacted_text compact_label label_len)
        (seq 0 (length compacted_text - label_len + 1)) (0%float, None) in
    let threshold := fuzzy_threshold label_len in
    match best_start with
    | None => None
    | Some best_start =>
      if (best_score <? threshold)%float then None
      else
        let start_idx := nth best_start index_map 0 in
        let end_idx := nth (best_start + label_len - 1) index_map 0 + 1 in
        Some (start_idx, end_idx)
    end.

(** The earliest of the spans found; a later span replaces the best one only
    when it starts strictly before it. *)
Definition earliest (best : option (nat * nat)) (found : option (nat * nat))
    : option (nat * nat) :=
  match found with
  | None => best
  | Some sp =>
    match best with
    | None => Some sp
    | Some b => if Nat.ltb (fst sp) (fst b) then Some sp else best
    end
  end.

Definition find_label_span_fuzzy (text : str) (labels : list str) : option (nat * nat) :=
  fold_left (fun best label => earliest best (_fuzzy_label_span text label)) labels None.

End Fuzzy.

Definition match_span (m : option rmatch) : option (nat * nat) :=
  option_map (fun m => (m_start m, m_end m)) m.

Definition find_label_span (text : str) (labels : list str) : option (nat * nat) :=
  fold_left
    (fun best label => earliest best (match_span (search (build_label_regex label) text)))
    labels None.

Definition strip_value_prefix (text : str) : str := lstrip (u " :：|-") text.

Definition clean_vehicle_no (text : str) : option str :=
  match map (group0 text) (finditer (plus alnum_hangul) text) with
  | [] => None
  | parts => Some (concat parts)
  end.

Definition clean_item_name (text : str) : option str :=
  let compact := replace (u " ") [] text in
  let compact :=
    if endswith (u "구분") compact
    then firstn (length compact - length (u "구분")) compact
    else compact in
  match compact with [] => None | _ => Some compact end.

(** [\(\s*\d{1,2}\s*:\s*\d{2}\s*\)] *)
Definition TIME_TOKEN_PAREN : regex :=
  cat [Chr (c_ "("); star s_; between d 1 2; star s_; Chr (c_ ":"); star s_; times d 2;
       star s_; Chr (c_ ")")].

(** [\d{1,2}\s*:\s*\d{2}(?:\s*:\s*\d{2})?] *)
Definition TIME_TOKEN : regex :=
  cat [between d 1 2; star s_; Chr (c_ ":"); star s_; times d 2;
       Opt (cat [star s_; Chr (c_ ":"); star s_; times d 2])].

(** [\d{1,2}\s*시\s*\d{1,2}\s*분] *)
Definition TIME_TOKEN_KOREAN : regex :=
  cat [between d 1 2; star s_; Chr (c_ "시"); star s_; between d 1 2; star s_; Chr (c_ "분")].

Definition strip_time_tokens (text : str) : str :=
  let text := sub TIME_TOKEN_PAREN (u " ") text in
  let text := sub TIME_TOKEN (u " ") text in
  sub TIME_TOKEN_KOREAN (u " ") text.

(** ** Line records (preprocessor.py) *)

Record LineInfo : Type := Build_LineInfo {
  raw : str;
  cleaned : str;
  compact : str
}.

Record PreprocessResult : Type := Build_PreprocessResult {
  pre_raw_text : str;
  line_infos : list LineInfo;
  pre_warnings : list Warning
}.

(** ** Field extractors (parser.py) *)

(** [(\d{4})[-./\s]*(\d{2})[-./\s]*(\d{2})] *)
Definition _DATE_PATTERN : regex :=
  cat [Grp 1 (times d 4); star (orc (any_of "-./") s_); Grp 2 (times d 2);
       star (orc (any_of "-./") s_); Grp 3 (times d 2)].

(** [(\d{1,2})\s*:\s*(\d{2})(?:\s*:\s*(\d{2}))?] *)
Definition _TIME_PATTERN : regex :=
  cat [Grp 1 (between d 1 2); star s_; Chr (c_ ":"); star s_; Grp 2 (times d 2);
       Opt (cat [star s_; Chr (c_ ":"); star s_; Grp 3 (times d 2)])].

(** [\(?\s*(\d{1,2})\s*:\s*(\d{2})\s*\)?] *)
Definition _TIME_PAREN_PATTERN : regex :=
  cat [Opt (Chr (c_ "(")); star s_; Grp 1 (between d 1 2); star s_; Chr (c_ ":"); star s_;
       Grp 2 (times d 2); star s_; Opt (Chr (c_ ")"))].

(** [(\d{1,2})\s*시\s*(\d{1,2})\s*분] *)
Definition _TIME_KOREAN_PATTERN : regex :=
  cat [Grp 1 (between d 1 2); star s_; Chr (c_ "시"); star s_; Grp 2 (between d 1 2);
       star s_; Chr (c_ "분")].

(** The class [[\d,\s]] of the weight pattern. *)
Definition weight_char : char -> bool := orc d (orc (c_ ",") s_).

(** [( \d [\d,\s]* ) \s* kg] (written here with blanks between its parts) with
    [re.IGNORECASE]: [k] also matches [K] and the Kelvin sign U+212A, whose
    lower case is [k]; [g] also matches [G]. *)
Definition _WEIGHT_PATTERN : regex :=
  cat [Grp 1 (Cat (Chr d) (star weight_char)); star s_;
       Chr (one_of [107; 75; 8490]%N); Chr (one_of [103; 71]%N)].

(** [(\d{4})\s*-\s*(\d{2})\s*-\s*(\d{2})\s+(\d{2})\s*:\s*(\d{2})\s*:\s*(\d{2})] *)
Definition _TIMESTAMP_PATTERN : regex :=
  cat [Grp 1 (times d 4); star s_; Chr (c_ "-"); star s_; Grp 2 (times d 2); star s_;
       Chr (c_ "-"); star s_; Grp 3 (times d 2); plus s_; Grp 4 (times d 2); star s_;
       Chr (c_ ":"); star s_; Grp 5 (times d 2); star s_; Chr (c_ ":"); star s_;
       Grp 6 (times d 2)].

(** The class [[-\s:]]. *)
Definition serial_separator : char -> bool := orc (any_of "-:") s_.

(** [[-\s:]*([0-9]{1,6})] *)
Definition SERIAL_AFTER_DATE : regex :=
  cat [star serial_separator; Grp 1 (between ascii_digit 1 6)].

(** [\d{1,8}] *)
Definition SERIAL_DIGITS : regex := between d 1 8.

(** [([-+]?\d+\.\d+)\s*,\s*([-+]?\d+\.\d+)] *)
Definition GPS_PATTERN : regex :=
  cat [Grp 1 (cat [Opt (Chr (any_of "-+")); plus d; Chr (c_ "."); plus d]); star s_;
       Chr (c_ ","); star s_;
       Grp 2 (cat [Opt (Chr (any_of "-+")); plus d; Chr (c_ "."); plus d])].

(** [m.group(n)] of a group that took part in the match. *)
Definition grp (text : str) (m : rmatch) (n : nat) : str :=
  match group text m n with Some g => g | None => [] end.

Definition extract_date_serial (text : str) : option str * option str :=
  match search _DATE_PATTERN text with
  | Some date_match =>
    let date_value :=
      grp text date_match 1 ++ u "-" ++ grp text date_match 2 ++ u "-" ++ grp text date_match 3 in
    let tail := skipn (m_end date_match) text in
    match search SERIAL_AFTER_DATE tail with
    | Some serial_match => (Some date_value, Some (grp tail serial_match 1))
    | None => (Some date_value, None)
    end
  | None => (None, None)
  end.

Definition extract_time (text : str) : option str :=
  match search _TIME_PATTERN text with
  | Some m =>
    let hour := int_of_digits (grp text m 1) in
    let minute := int_of_digits (grp text m 2) in
    match group text m 3 with
    | Some ((_ :: _) as second) =>
      Some (format_02d hour ++ u ":" ++ format_02d minute ++ u ":"
              ++ format_02d (int_of_digits second))
    | _ => Some (format_02d hour ++ u ":" ++ format_02d minute)
    end
  | None =>
    match search _TIME_PAREN_PATTERN text with
    | Some m =>
      Some (format_02d (int_of_digits (grp text m 1)) ++ u ":"
              ++ format_02d (int_of_digits (grp text m 2)))
    | None =>
      match search _TIME_KOREAN_PATTERN text with
      | Some m =>
        Some (format_02d (int_of_digits (grp text m 1)) ++ u ":"
                ++ format_02d (int_of_digits (grp text m 2)))
      | None => None
      end
    end
  end.

(** [re.sub(r"[,\s]", "", raw)] *)
Definition drop_separators (raw_digits : str) : str :=
  sub (Chr (orc (c_ ",") s_)) [] raw_digits.

Definition extract_weight (text : str) : option float :=
  let sanitized := strip_time_tokens text in
  match search _WEIGHT_PATTERN sanitized with
  | None => None
  | Some m => PyFloat.of_str (drop_separators (grp sanitized m 1))
  end.


(** The first entry of a table one of whose words satisfies [p]. *)
Definition first_entry {A : Type} (p : str -> bool) (table : list (A * list str)) : option A :=
  option_map fst (find (fun kv => existsb p (snd kv)) table).

Definition detect_doc_type (lines : list LineInfo) : str :=
  let by_variant line :=
    first_entry (fun variant => contains (compact_text variant) (compact line)) DOC_TYPES in
  match flat_map (fun line => match by_variant line with Some t => [t] | None => [] end) lines with
  | doc_type :: _ => doc_type
  | [] =>
    let by_prefix line :=
      option_map snd (find (fun kv => startswith (fst kv) (compact line)) DOC_TYPE_PREFIX_MAP) in
    match flat_map (fun line => match by_prefix line with Some t => [t] | None => [] end) lines with
    | doc_type :: _ => doc_type
    | [] => u "unknown"
    end
  end.

Definition detect_direction_from_text (text : str) : option str :=
  match first_entry (fun keyword => contains keyword text) DIRECTION_KEYWORDS with
  | Some direction => Some direction
  | None => table_get (compact_text text) DIRECTION_COMPACT_MAP
  end.

Definition extract_gps (text : str) : option (float * float) :=
  match search GPS_PATTERN text with
  | None => None
  | Some m =>
    match PyFloat.of_str (grp text m 1), PyFloat.of_str (grp text m 2) with
    | Some lat, Some lng =>
      if ((-90 <=? lat) && (lat <=? 90) && (-180 <=? lng) && (lng <=? 180))%float
      then Some (lat, lng)
      else None
    | _, _ => None
    end
  end.

Definition extract_timestamp (text : str) : option str :=
  match search _TIMESTAMP_PATTERN text with
  | None => None
  | Some m =>
    Some (grp text m 1 ++ u "-" ++ grp text m 2 ++ u "-" ++ grp text m 3 ++ u " "
            ++ grp text m 4 ++ u ":" ++ grp text m 5 ++ u ":" ++ grp text m 6)
  end.

(** [value or None] for a string. *)
Definition nonempty (value : str) : option str :=
  match value with [] => None | _ => Some value end.

Definition split_item_direction (line : LineInfo) : option str * option str :=
  match find_label_span (cleaned line) (labels "item"),
        find_label_span (cleaned line) (labels "direction") with
  | Some item_span, Some direction_span =>
    if Nat.leb (fst direction_span) (snd item_span) then (None, None)
    else
      let item_value :=
        strip (strip_value_prefix (slice (cleaned line) (snd item_span) (fst direction_span))) in
      let direction_value :=
        strip (strip_value_prefix (skipn (snd direction_span) (cleaned line))) in
      (nonempty item_value, nonempty direction_value)
  | _, _ => (None, None)
  end.

Definition is_label_line (line : LineInfo) : bool :=
  existsb
    (fun kv => match find_label_span (cleaned line) (snd kv) with Some _ => true | None => false end)
    LABELS.

Definition find_issuer (lines : list LineInfo) : option str :=
  let corporate line :=
    let cleaned_compact := replace (u " ") [] (cleaned line) in
    existsb (fun marker => contains marker cleaned_compact) ISSUER_CORP_MARKERS
    && negb (existsb (fun token => contains token (cleaned line)) ISSUER_EXCLUDE_CONTAINS) in
  match find corporate lines with
  | Some line => Some (replace (u " ") [] (cleaned line))
  | None =>
    let candidate line :=
      match strip (cleaned line) with
      | [] => false
      | _ =>
        match extract_timestamp (cleaned line), extract_gps (cleaned line) with
        | None, None =>
          negb (existsb (fun token => contains token (cleaned line)) ISSUER_SKIP_CONTAINS)
          && negb (is_label_line line)
          && Nat.leb 2 (length (cleaned line))
        | _, _ => false
        end
      end in
    option_map cleaned (find candidate (rev lines))
  end.

(** ** Preprocessor (preprocessor.py) *)

(** The input payload: [pages], each with its [lines] and its [text], and a
    top-level [text]; every part may be missing. *)
Record PageLine : Type := Build_PageLine { line_text : option str }.
Record Page : Type := Build_Page { page_lines : option (list PageLine); page_text : option str }.
Record Payload : Type := Build_Payload { pages : option (list Page); payload_text : option str }.

Definition truthy_texts (texts : list (option str)) : list str :=
  flat_map (fun t => match t with Some ((_ :: _) as text) => [text] | _ => [] end) texts.

Definition extract_lines (payload : Payload) : list str :=
  let pages := match pages payload with Some ps => ps | None => [] end in
  let top :=
    match payload_text payload with Some ((_ :: _) as top_text) => [top_text] | _ => [] end in
  match pages with
  | [] => top
  | _ =>
    let lines :=
      flat_map
        (fun page =>
           truthy_texts (map line_text (match page_lines page with Some ls => ls | None => [] end)))
        pages in
    match lines with
    | _ :: _ => lines
    | [] =>
      match truthy_texts (map page_text pages) with
      | (_ :: _) as page_texts => page_texts
      | [] => top
      end
    end
  end.

Definition is_noise_line (text : str) : bool :=
  match strip text with
  | [] => true
  | _ => existsb (str_eqb (compact_text text)) NOISE_COMPACT_TOKENS
  end.

Definition build_line_infos (lines : list str) : list LineInfo :=
  map (fun line =>
         let cleaned := normalize_spaces line in
         Build_LineInfo line cleaned (compact_text cleaned))
      lines.

(** ** Record assembler (parser.py) *)

Inductive direction_source : Type := source_none | source_weak | source_label.

(** The state of the loop of [parse_preprocessed]. *)
Record assembly : Type := Build_assembly {
  st_record : ParsedRecord;
  st_warnings : list Warning;
  st_candidates : list (str * float * nat);
  st_source : direction_source
}.

Definition with_record (f : ParsedRecord -> ParsedRecord) (st : assembly) : assembly :=
  Build_assembly (f (st_record st)) (st_warnings st) (st_candidates st) (st_source st).

Definition with_warnings (ws : list Warning) (st : assembly) : assembly :=
  Build_assembly (st_record st) ws (st_candidates st) (st_source st).

Definition with_source (src : direction_source) (st : assembly) : assembly :=
  Build_assembly (st_record st) (st_warnings st) (st_candidates st) src.

Definition with_candidate (c : str * float * nat) (st : assembly) : assembly :=
  Build_assembly (st_record st) (st_warnings st) (st_candidates st ++ [c]) (st_source st).

(** [a or b] for an optional string [a] and a string [b]. *)
Definition or_str (a : option str) (b : str) : option str :=
  match a with Some (_ :: _) => a | _ => Some b end.

Section Assembler.

Context {py : PyLib}.

Definition preprocess_payload (payload : Payload) (initial_warnings : list Warning)
    : PreprocessResult :=
  let warnings := initial_warnings in
  let lines := extract_lines payload in
  let raw_text := join [10%N] lines in
  let all_infos := build_line_infos lines in
  let line_infos := filter (fun info => negb (is_noise_line (cleaned info))) all_infos in
  let noise_count := length all_infos - length line_infos in
  let warnings :=
    match lines with
    | [] => add_warning warnings (u "missing_pages_and_text") None None None
    | _ => warnings
    end in
  let warnings :=
    if Nat.ltb 0 noise_count
    then add_warning warnings (u "noise_lines_removed")
           (Some [(u "count", VInt (Z.of_nat noise_count))]) None None
    else warnings in
  Build_PreprocessResult raw_text line_infos warnings.

(** The first loop of [select_value_after_label]: the earliest exact match
    and its label. *)
Definition exact_step (text : str) (best : option ((nat * nat) * str)) (label : str)
    : option ((nat * nat) * str) :=
  match search (build_label_regex label) text with
  | Some m =>
    match best with
    | Some (best_span, _) =>
      if Nat.ltb (m_start m) (fst best_span) then Some ((m_start m, m_end m), label) else best
    | None => Some ((m_start m, m_end m), label)
    end
  | None => best
  end.

(** The second loop: the earliest fuzzy match and its label. *)
Definition fuzzy_label_step (text : str) (best : option ((nat * nat) * str)) (label : str)
    : option ((nat * nat) * str) :=
  match find_label_span_fuzzy text [label] with
  | Some sp =>
    match best with
    | Some (best_span, _) => if Nat.ltb (fst sp) (fst best_span) then Some (sp, label) else best
    | None => Some (sp, label)
    end
  | None => best
  end.

Definition best_label_span (text : str) (labels : list str) : option ((nat * nat) * str) :=
  match fold_left (exact_step text) labels None with
  | Some best => Some best
  | None => fold_left (fuzzy_label_step text) labels None
  end.

Definition select_value_after_label (line : LineInfo) (labels : list str)
    (warnings : list Warning) : option str * list Warning :=
  match best_label_span (cleaned line) labels with
  | None => (None, warnings)
  | Some (best_span, best_label) =>
    let value := strip_value_prefix (skipn (snd best_span) (cleaned line)) in
    match strip value with
    | [] =>
      let label_name := replace (u " ") [] (match best_label with [] => hd [] labels | _ => best_label end) in
      (None, add_warning warnings (u "label_empty_value")
               (Some [(u "label", VStr label_name)]) None None)
    | stripped => (Some stripped, warnings)
    end
  end.

(** [select_value_after_label] on the state of the loop. *)
Definition select (line : LineInfo) (key : string) (st : assembly) : option str * assembly :=
  let '(value, ws) := select_value_after_label line (labels key) (st_warnings st) in
  (value, with_warnings ws st).
Arguments select line key%_string st.

(** Lines 239 to 245. *)
Definition salutation_rule (line : LineInfo) (st : assembly) : assembly :=
  match partner_name (st_record st) with
  | Some (_ :: _) => st
  | _ =>
    match find (fun keyword => contains keyword (cleaned line)) SALUTATION_KEYWORDS with
    | Some keyword =>
      match strip (replace keyword [] (cleaned line)) with
      | [] => st
      | partner_value =>
        with_record (set_partner_name (Some (replace (u " ") [] partner_value))) st
      end
    | None => st
    end
  end.

(** Lines 247 to 254. *)
Definition date_rule (line : LineInfo) (st : assembly) : assembly :=
  let '(date_value, serial_value) :=
    match find_label_span (cleaned line) (labels "date") with
    | Some _ => extract_date_serial (cleaned line)
    | None => (None, None)
    end in
  let st :=
    match date_value with
    | Some ((_ :: _) as dv) =>
      with_record (fun r => set_weigh_date (or_str (weigh_date r) dv) r) st
    | _ => st
    end in
  match serial_value with
  | Some ((_ :: _) as sv) => with_record (fun r => set_serial_no (or_str (serial_no r) sv) r) st
  | _ => st
  end.

(** Lines 256 to 260. *)
Definition serial_rule (line : LineInfo) (st : assembly) : assembly :=
  let '(serial_text, st) := select line "serial" st in
  match serial_text, serial_no (st_record st) with
  | Some ((_ :: _) as serial_text), (None | Some []) =>
    let digits := replace (u " ") [] serial_text in
    match search SERIAL_DIGITS digits with
    | Some serial_match => with_record (set_serial_no (Some (group0 digits serial_match))) st
    | None => st
    end
  | _, _ => st
  end.

(** Lines 262 to 274. *)
Definition vehicle_rule (line : LineInfo) (st : assembly) : assembly :=
  let '(vehicle_text, st) := select line "vehicle" st in
  match vehicle_text with
  | Some ((_ :: _) as vehicle_text) =>
    let '(vehicle_text, st) :=
      match detect_direction_from_text vehicle_text with
      | Some ((_ :: _) as found) =>
        let st := with_record (fun r => set_direction (or_str (direction r) found) r) st in
        let st := with_source source_weak st in
        let vehicle_text :=
          fold_left (fun text keyword => replace keyword [] text)
            (flat_map snd DIRECTION_KEYWORDS) vehicle_text in
        (strip vehicle_text, st)
      | _ => (vehicle_text, st)
      end in
    match clean_vehicle_no vehicle_text with
    | Some ((_ :: _) as vehicle_value) =>
      with_record (fun r => set_vehicle_no (or_str (vehicle_no r) vehicle_value) r) st
    | _ => st
    end
  | _ => st
  end.

(** Lines 276 to 278. *)
Definition partner_rule (line : LineInfo) (st : assembly) : assembly :=
  let '(partner_text, st) := select line "partner" st in
  match partner_text with
  | Some ((_ :: _) as partner_text) =>
    with_record
      (fun r => set_partner_name (or_str (partner_name r) (replace (u " ") [] partner_text)) r) st
  | _ => st
  end.

(** A direction read after a label: it is taken whatever was there. *)
Definition label_direction (direction_value : option str) (st : assembly) : assembly :=
  match direction_value with
  | Some ((_ :: _) as direction_value) =>
    match detect_direction_from_text direction_value with
    | Some ((_ :: _) as detected) =>
      with_source source_label (with_record (set_direction (Some detected)) st)
    | _ => st
    end
  | _ => st
  end.

(** An item name, taken when the record has none. *)
Definition item_name_rule (item_value : option str) (st : assembly) : assembly :=
  match item_value, item_name (st_record st) with
  | Some ((_ :: _) as item_value), (None | Some []) =>
    with_record (set_item_name (clean_item_name item_value)) st
  | _, _ => st
  end.

(** Lines 280 to 287. *)
Definition item_direction_rule (line : LineInfo) (st : assembly) : assembly :=
  let '(item_value, direction_value) := split_item_direction line in
  label_direction direction_value (item_name_rule item_value st).

(** Lines 289 to 291. *)
Definition item_rule (line : LineInfo) (st : assembly) : assembly :=
  let '(item_text, st) := select line "item" st in
  item_name_rule item_text st.

(** Lines 293 to 298. *)
Definition direction_rule (line : LineInfo) (st : assembly) : assembly :=
  let '(direction_text, st) := select line "direction" st in
  label_direction direction_text st.

(** Lines 300 to 307. *)
Definition weak_direction_rule (line : LineInfo) (st : assembly) : assembly :=
  match st_source st with
  | source_label => st
  | src =>
    match detect_direction_from_text (cleaned line) with
    | Some ((_ :: _) as detected) =>
      let st :=
        match src with
        | source_weak =>
          if str_eqb detected DIRECTION_OUT
          then with_record (set_direction (Some detected)) st else st
        | source_none => with_record (set_direction (Some detected)) st
        | source_label => st
        end in
      with_source source_weak st
    | _ => st
    end
  end.

(** A float, taken when the field has none. *)
Definition fill_float (get : ParsedRecord -> option float)
    (set : option float -> ParsedRecord -> ParsedRecord) (v : option float) (st : assembly)
    : assembly :=
  match v, get (st_record st) with
  | Some x, None => with_record (set (Some x)) st
  | _, _ => st
  end.

(** A time, taken when the field has none. *)
Definition fill_time (get : ParsedRecord -> option str)
    (set : option str -> ParsedRecord -> ParsedRecord) (v : option str) (st : assembly)
    : assembly :=
  match v, get (st_record st) with
  | Some x, None => with_record (set (Some x)) st
  | _, _ => st
  end.

(** Lines 309 to 316. *)
Definition gross_rule (line : LineInfo) (st : assembly) : assembly :=
  let '(gross_text, st) := select line "gross" st in
  match gross_text with
  | Some ((_ :: _) as gross_text) =>
    let st := fill_float gross_weight_kg set_gross_weight_kg (extract_weight gross_text) st in
    fill_time weigh_time_in set_weigh_time_in (extract_time gross_text) st
  | _ => st
  end.

(** Lines 318 to 325. *)
Definition tare_rule (line : LineInfo) (st : assembly) : assembly :=
  let '(tare_text, st) := select line "tare" st in
  match tare_text with
  | Some ((_ :: _) as tare_text) =>
    let st := fill_float tare_weight_kg set_tare_weight_kg (extract_weight tare_text) st in
    fill_time weigh_time_out set_weigh_time_out (extract_time tare_text) st
  | _ => st
  end.

(** Lines 327 to 331. *)
Definition net_rule (line : LineInfo) (st : assembly) : assembly :=
  let '(net_text, st) := select line "net" st in
  match net_text with
  | Some ((_ :: _) as net_text) =>
    fill_float net_weight_kg set_net_weight_kg (extract_weight net_text) st
  | _ => st
  end.

(** Lines 333 to 337. *)
Definition deduction_rule (line : LineInfo) (st : assembly) : assembly :=
  let '(deduction_text, st) := select line "deduction" st in
  match deduction_text with
  | Some ((_ :: _) as deduction_text) =>
    fill_float deduction_weight_kg set_deduction_weight_kg (extract_weight deduction_text) st
  | _ => st
  end.

(** Whether the line carries one of the four weight labels, written as such. *)
Definition has_weight_label (line : LineInfo) : bool :=
  existsb
    (fun key => match find_label_span (cleaned line) key with Some _ => true | None => false end)
    [labels "gross"; labels "tare"; labels "net"; labels "deduction"].

(** Lines 339 to 346. *)
Definition candidate_rule (idx : nat) (line : LineInfo) (st : assembly) : assembly :=
  if has_weight_label line then st
  else
    match extract_weight (cleaned line), extract_time (cleaned line) with
    | Some weight, Some ((_ :: _) as time_value) =>
      if PyFloat.truthy weight then with_candidate (time_value, weight, idx) st else st
    | _, _ => st
    end.

(** Lines 348 to 351. *)
Definition timestamp_gps_rule (line : LineInfo) (st : assembly) : assembly :=
  let st :=
    match timestamp (st_record st) with
    | Some (_ :: _) => st
    | old =>
      match extract_timestamp (cleaned line) with
      | Some ((_ :: _) as ts) => with_record (set_timestamp (Some ts)) st
      | _ => with_record (set_timestamp old) st
      end
    end in
  match gps (st_record st) with
  | Some _ => st
  | None =>
    match extract_gps (cleaned line) with
    | Some g => with_record (set_gps (Some g)) st
    | None => st
    end
  end.

(** The body of the loop, lines 239 to 351. *)
Definition parse_line (st : assembly) (indexed : nat * LineInfo) : assembly :=
  let '(idx, line) := indexed in
  let st := salutation_rule line st in
  let st := date_rule line st in
  let st := serial_rule line st in
  let st := vehicle_rule line st in
  let st := partner_rule line st in
  let st := item_direction_rule line st in
  let st := item_rule line st in
  let st := direction_rule line st in
  let st := weak_direction_rule line st in
  let st := gross_rule line st in
  let st := tare_rule line st in
  let st := net_rule line st in
  let st := deduction_rule line st in
  let st := candidate_rule idx line st in
  timestamp_gps_rule line st.

(** Lines 354 to 358: the first candidate stands in for the gross weight. *)
Definition infer_gross (st : assembly) : assembly :=
  match st_candidates st with
  | (time_value, weight_value, _) :: _ =>
    if float_set_and_nonzero (gross_weight_kg (st_record st)) then st
    else
      let st := with_record (set_gross_weight_kg (Some weight_value)) st in
      let st := with_record (fun r => set_weigh_time_in (or_str (weigh_time_in r) time_value) r) st in
      with_warnings (add_warning (st_warnings st) (u "gross_inferred_from_time_weight")
                       None None None) st
  | [] => st
  end.

(** Lines 359 to 363: the second candidate stands in for the tare weight. *)
Definition infer_tare (st : assembly) : assembly :=
  match st_candidates st with
  | _ :: (time_value, weight_value, _) :: _ =>
    if float_set_and_nonzero (tare_weight_kg (st_record st)) then st
    else
      let st := with_record (set_tare_weight_kg (Some weight_value)) st in
      let st := with_record (fun r => set_weigh_time_out (or_str (weigh_time_out r) time_value) r) st in
      with_warnings (add_warning (st_warnings st) (u "tare_inferred_from_time_weight")
                       None None None) st
  | _ => st
  end.

(** [enumerate(lines)] *)
Definition enumerate {A : Type} (l : list A) : list (nat * A) := combine (seq 0 (length l)) l.

(** The state before the first line, lines 227 to 236. *)
Definition initial_assembly (preprocessed : PreprocessResult) : assembly :=
  let record := set_raw_text (pre_raw_text preprocessed) empty_record in
  let record := set_doc_type (detect_doc_type (line_infos preprocessed)) record in
  Build_assembly record (pre_warnings preprocessed) [] source_none.

(** The state after the loop over the lines. *)
Definition assemble (preprocessed : PreprocessResult) : assembly :=
  fold_left parse_line (enumerate (line_infos preprocessed)) (initial_assembly preprocessed).

Definition parse_preprocessed (preprocessed : PreprocessResult)
    : ParsedRecord * list Warning :=
  let st := infer_tare (infer_gross (assemble preprocessed)) in
  let record :=
    match find_issuer (line_infos preprocessed) with
    | Some ((_ :: _) as issuer) => set_issuer (Some issuer) (st_record st)
    | _ => st_record st
    end in
  (record, st_warnings st).

(** ** Pipeline (pipeline.py) *)



End Assembler.

(** ** Vocabulary of the properties *)


(** Whether some warning of the list has the key [k]. *)
Definition key_present (k : warning_key) (ws : list Warning) : bool :=
  existsb (fun existing => key_eqb (_warning_key existing) k) ws.

(** [context or None] after [context or {}]: an empty context is no context. *)
Definition context_or_none (context : option dict) : option dict :=
  match context with Some ((_ :: _) as dc) => Some dc | _ => None end.

(** [context or {}] *)
Definition context_or_empty (context : option dict) : dict :=
  match context with Some dc => dc | None => [] end.

(** The number of warnings of a list that have the key [k]. *)
Definition count_key (k : warning_key) (ws : list Warning) : nat :=
  length (filter (fun existing => key_eqb (_warning_key existing) k) ws).

(** The context that [validate_weights] gives to its warnings, and the two
    warnings it builds for a field and its value. *)
Definition weight_context (field_name : str) (value : float) : option dict :=
  Some [(u "field", VStr field_name); (u "value", VFloat value)].

Definition negative_weight_warning {py : PyLib} (field_name : str) (value : float) : Warning :=
  make_warning (u "negative_weight") (weight_context field_name value) (Some ERROR) None.

Definition weight_exceeds_limit_warning {py : PyLib} (field_name : str) (value : float)
    : Warning :=
  make_warning (u "weight_exceeds_limit") (weight_context field_name value) (Some WARN) None.

(** Where a warning added by [validate_weights] comes from: a field that is
    set, whose value is out of range on one side. *)
Definition from_field {py : PyLib} (fields : list (str * option float)) (w : Warning) : Prop :=
  exists name v, In (name, Some v) fields /\
    (((v <? ValidationThresholds.MIN_WEIGHT_KG)%float = true /\
      w = negative_weight_warning name v)
     \/ ((ValidationThresholds.MAX_WEIGHT_KG <? v)%float = true /\
         w = weight_exceeds_limit_warning name v)).

(** A warning list without the keys of the two warnings of a field. *)
Definition keys_free {py : PyLib} (name : str) (v : float) (ws : list Warning) : Prop :=
  key_present (_warning_key (negative_weight_warning name v)) ws = false /\
  key_present (_warning_key (weight_exceeds_limit_warning name v)) ws = false.

(** The longest prefix of [s] whose characters satisfy [p]. *)
Fixpoint takewhile (p : char -> bool) (s : str) : str :=
  match s with
  | c :: s' => if p c then c :: takewhile p s' else []
  | [] => []
  end.

(** The digits that start at the first ASCII digit of [s], six at most. *)
Fixpoint first_digit_run (s : str) : option str :=
  match s with
  | [] => None
  | c :: s' => if ascii_digit c then Some (firstn 6 (takewhile ascii_digit s)) else first_digit_run s'
  end.

(** Whether [s] holds an ASCII digit that stands right after [-], [:] or a
    blank. *)
Fixpoint digit_after_separator (s : str) : bool :=
  match s with
  | c :: ((c' :: _) as s') =>
    (serial_separator c && ascii_digit c') || digit_after_separator s'
  | _ => false
  end.

(** The compacted text, the index of each of its characters in the text,
    and the window of a label at a position of the compacted text. *)
Definition compacted (text : str) : str := fst (_compact_with_index_map text).
Definition index_map (text : str) : list nat := snd (_compact_with_index_map text).
Definition window (text label : str) (start : nat) : str :=
  slice (compacted text) start (start + length (compact_text label)).

(** The pruning test of the loop: a window is scored unless its first
    character differs from the first character of the label. *)
Definition first_char_matches (window label : str) : bool :=
  match window, label with
  | w0 :: _, l0 :: _ => (w0 =? l0)%N
  | _, _ => true
  end.

(** What the loop of [_fuzzy_label_span] has found after the first [k]
    positions: no scored window among them beats the best score, and the
    best start, when there is one, is a scored window whose ratio is the best
    score. *)
Definition loop_invariant {py : PyLib} (ct cl : str) (n k : nat)
    (state : float * option nat) : Prop :=
  (forall s', s' < k -> first_char_matches (slice ct s' (s' + n)) cl = true ->
     (fst state <? SequenceMatcher_ratio cl (slice ct s' (s' + n)))%float = false)
  /\ match snd state with
     | None => fst state = 0%float
     | Some s =>
       s < k /\ first_char_matches (slice ct s (s + n)) cl = true
       /\ fst state = SequenceMatcher_ratio cl (slice ct s (s + n))
       /\ PyFloat.is_number (fst state) = true
     end.

(** A payload of one page with the given lines. *)
Definition payload_of_lines (lines : list str) : Payload :=
  Build_Payload (Some [Build_Page (Some (map (fun t => Build_PageLine (Some t)) lines)) None])
    None.



(** The weights and the weighing times of a record. *)
Definition measures (r : ParsedRecord)
    : option float * option float * option float * option float * option str * option str :=
  (gross_weight_kg r, tare_weight_kg r, net_weight_kg r, deduction_weight_kg r,
   weigh_time_in r, weigh_time_out r).

(** A warning list after zero or one [label_empty_value] warning was added
    to it. *)
Definition grown {py : PyLib} (ws ws' : list Warning) : Prop :=
  ws' = ws \/
  exists label_name,
    ws' = add_warning ws (u "label_empty_value") (Some [(u "label", VStr label_name)]) None None.

(** A rule that leaves the weights, the weighing times and the candidates as
    they are. *)
Definition frame (rule : assembly -> assembly) : Prop :=
  forall st,
    measures (st_record (rule st)) = measures (st_record st)
    /\ st_candidates (rule st) = st_candidates st.

(** A line on which no label of the four weight families is found, neither
    as written nor by similarity. *)
Definition unlabeled {py : PyLib} (line : LineInfo) : Prop :=
  best_label_span (cleaned line) (labels "gross") = None
  /\ best_label_span (cleaned line) (labels "tare") = None
  /\ best_label_span (cleaned line) (labels "net") = None
  /\ best_label_span (cleaned line) (labels "deduction") = None.

(** An unlabeled line with a bare time [t] and a bare weight [w] other than
    0 kg. *)
Definition timed_weight_line {py : PyLib} (line : LineInfo) (t : str) (w : float) : Prop :=
  unlabeled line
  /\ extract_time (cleaned line) = Some t
  /\ extract_weight (cleaned line) = Some w
  /\ PyFloat.truthy w = true.

(** The rules of a line that come before the weight rules. *)
Definition head_rules {py : PyLib} (line : LineInfo) (st : assembly) : assembly :=
  weak_direction_rule line (direction_rule line (item_rule line (item_direction_rule line
    (partner_rule line (vehicle_rule line (serial_rule line (date_rule line
      (salutation_rule line st)))))))).

(** A string field keeps its value once it holds a string that is not
    empty. *)
Definition kept_str (x y : option str) : Prop := str_set_and_nonempty x = true -> y = x.

(** A field keeps its value once it is set. *)
Definition kept_value {A : Type} (x y : option A) : Prop := x <> None -> y = x.

(** A weight keeps its value once it is set and not 0 kg. *)
Definition kept_weight (x y : option float) : Prop := float_set_and_nonzero x = true -> y = x.

(** What a step from record [r] to record [r'] keeps of every field but the
    direction; [weight] says when a gross or tare weight is kept. *)
Definition fields_kept (weight : option float -> option float -> Prop)
    (r r' : ParsedRecord) : Prop :=
  doc_type r' = doc_type r
  /\ raw_text r' = raw_text r
  /\ kept_str (weigh_date r) (weigh_date r')
  /\ kept_str (weigh_time_in r) (weigh_time_in r')
  /\ kept_str (weigh_time_out r) (weigh_time_out r')
  /\ kept_str (serial_no r) (serial_no r')
  /\ kept_str (vehicle_no r) (vehicle_no r')
  /\ kept_str (partner_name r) (partner_name r')
  /\ kept_str (item_name r) (item_name r')
  /\ kept_str (issuer r) (issuer r')
  /\ kept_str (timestamp r) (timestamp r')
  /\ kept_value (gps r) (gps r')
  /\ weight (gross_weight_kg r) (gross_weight_kg r')
  /\ weight (tare_weight_kg r) (tare_weight_kg r')
  /\ kept_value (net_weight_kg r) (net_weight_kg r')
  /\ kept_value (deduction_weight_kg r) (deduction_weight_kg r').

(** First writer wins: every set field but the direction keeps its value. *)
Definition first_writer_wins : ParsedRecord -> ParsedRecord -> Prop := fields_kept kept_value.

(** The state of the loop after the first [n] lines. *)
Definition assemble_upto {py : PyLib} (n : nat) (preprocessed : PreprocessResult) : assembly :=
  fold_left parse_line (firstn n (enumerate (line_infos preprocessed)))
    (initial_assembly preprocessed).



(** The lines of a payload after preprocessing, with no warning of the
    loader. *)
Definition preprocessed_lines {py : PyLib} (lines : list str) : PreprocessResult :=
  preprocess_payload (payload_of_lines lines) [].

(** What [build_line_infos] makes of one line. *)
Definition line_info_of (line : str) : LineInfo :=
  Build_LineInfo line (normalize_spaces line) (compact_text (normalize_spaces line)).

(** The three lines of the test of several time and weight pairs. *)
Definition three_pairs_lines : list str :=
  [u "01:00 1,000 kg"; u "01:10 800 kg"; u "01:20 900 kg"].

(** A gross weight of 0 kg under its label, then a bare time and weight. *)
Definition zero_gross_lines : list str := [u "총중량: 0 kg"; u "01:00 500 kg"].

(** Three bare time and weight lines; the second weighs 0 kg. *)
Definition zero_second_lines : list str :=
  [u "01:00 1000 kg"; u "01:10 0 kg"; u "01:20 900 kg"].


(** ** A reference library

    The library used where a property is shown on a concrete input. *)

(** [repr] of a float that is an integer below 2^53 in magnitude: its digits
    and [.0]. Other floats do not occur in the inputs shown. *)
Definition integral_float_repr (x : float) : str :=
  match Prim2SF x with
  | S754_zero sg => (if sg then u "-" else []) ++ u "0.0"
  | S754_finite sg m e =>
    let v := if sg then Zneg m else Zpos m in
    if (0 <=? e)%Z then str_of_int (v * 2 ^ e) ++ u ".0"
    else if (v mod 2 ^ (- e) =? 0)%Z then str_of_int (v / 2 ^ (- e)) ++ u ".0"
    else u "<float>"
  | _ => u "<float>"
  end.

(** Modelled from the spec: the similarity ratio of [difflib], which the
    package imports. The specification describes it as Ratcliff/Obershelp
    style: twice the number of matched characters over the total length,
    the matched characters being those of the longest common contiguous
    block and, recursively, of the longest common blocks to its left and to
    its right. *)
Fixpoint common_prefix_length (a b : str) : nat :=
  match a, b with
  | x :: a', y :: b' => if (x =? y)%N then S (common_prefix_length a' b') else 0
  | _, _ => 0
  end.

(** All suffixes of a list, each with its offset. *)
Fixpoint suffixes_from (i : nat) (a : str) : list (nat * str) :=
  match a with
  | [] => []
  | _ :: a' => (i, a) :: suffixes_from (S i) a'
  end.

(** The longest common block [(i, j, size)]; of several of the same size,
    the one that starts first in [a], then first in [b]. *)
Definition longest_common_block (a b : str) : nat * nat * nat :=
  fold_left
    (fun best ia =>
       fold_left
         (fun best jb =>
            let k := common_prefix_length (snd ia) (snd jb) in
            if Nat.ltb (snd best) k then (fst ia, fst jb, k) else best)
         (suffixes_from 0 b) best)
    (suffixes_from 0 a) (0, 0, 0).

Fixpoint matched_characters (fuel : nat) (a b : str) : nat :=
  match fuel with
  | O => 0
  | S fuel' =>
    let '(i, j, k) := longest_common_block a b in
    match k with
    | O => 0
    | _ =>
      matched_characters fuel' (firstn i a) (firstn j b) + k
      + matched_characters fuel' (skipn (i + k) a) (skipn (j + k) b)
    end
  end.

Definition ratcliff_obershelp_ratio (a b : str) : float :=
  let total := length a + length b in
  match total with
  | O => 1.0%float
  | _ =>
    (2.0 * PyFloat.of_int (Z.of_nat (matched_characters (S total) a b))
     / PyFloat.of_int (Z.of_nat total))%float
  end.

#[global] Instance reference_lib : PyLib :=
  {| float_repr := integral_float_repr; SequenceMatcher_ratio := ratcliff_obershelp_ratio |}.

(** * Properties *)

(** ** Order of binary64 values *)

Module FloatFacts.

Local Open Scope float_scope.

Ltac cmp_cases :=
  repeat match goal with
         | |- context [Z.compare ?a ?b] => destruct (Z.compare_spec a b)
         | H : context [Z.compare ?a ?b] |- _ => destruct (Z.compare_spec a b)
         | |- context [Pos.compare ?a ?b] => destruct (Pos.compare_spec a b)
         | H : context [Pos.compare ?a ?b] |- _ => destruct (Pos.compare_spec a b)
         end.

Lemma SFltb_trans (a b c : spec_float) :
  SFltb a b = true -> SFltb b c = true -> SFltb a c = true.
Proof.
  unfold SFltb, SFcompare.
  destruct a as [[|]|[|]| |[|] ma ea], b as [[|]|[|]| |[|] mb eb], c as [[|]|[|]| |[|] mc ec];
    try discriminate; try reflexivity;
    intros Hab Hbc; change (PosDef.Pos.compare_cont Eq) with Pos.compare in *;
    cmp_cases; simpl in *; try discriminate; try reflexivity; subst; try lia.
Qed.

Lemma SFltb_irrefl (a : spec_float) : SFltb a a = false.
Proof.
  unfold SFltb, SFcompare.
  destruct a as [[|]|[|]| |[|] ma ea]; try reflexivity;
    change (PosDef.Pos.compare_cont Eq) with Pos.compare;
    rewrite Z.compare_refl, Pos.compare_refl; reflexivity.
Qed.

(** Two values of which neither is below the other in one direction, and
    that can be compared, are ordered in the other direction. *)
Lemma SFleb_of_not_ltb (a b : spec_float) :
  SFcompare a b <> None -> SFltb a b = false -> SFleb b a = true.
Proof.
  unfold SFltb, SFleb, SFcompare.
  destruct a as [[|]|[|]| |[|] ma ea], b as [[|]|[|]| |[|] mb eb];
    try discriminate; try reflexivity; try congruence;
    intros _ Hab; change (PosDef.Pos.compare_cont Eq) with Pos.compare in *;
    cmp_cases; simpl in *; try discriminate; try reflexivity; subst; try lia.
Qed.

Lemma SFltb_comparable (a b : spec_float) : SFltb a b = true -> SFcompare a b <> None.
Proof. unfold SFltb. destruct (SFcompare a b); congruence. Qed.

Lemma SFcompare_nan_free (a b c : spec_float) :
  SFcompare a b <> None -> SFcompare b c <> None -> SFcompare a c <> None.
Proof.
  destruct a as [[|]|[|]| |[|] ma ea], b as [[|]|[|]| |[|] mb eb], c as [[|]|[|]| |[|] mc ec];
    simpl; congruence.
Qed.

Lemma SFcompare_sym_defined (a b : spec_float) :
  SFcompare a b <> None -> SFcompare b a <> None.
Proof.
  destruct a as [[|]|[|]| |[|] ma ea], b as [[|]|[|]| |[|] mb eb]; simpl; congruence.
Qed.

Lemma ltb_trans (x y z : float) : (x <? y) = true -> (y <? z) = true -> (x <? z) = true.
Proof. rewrite !ltb_spec. apply SFltb_trans. Qed.

Lemma ltb_irrefl (x : float) : (x <? x) = false.
Proof. rewrite ltb_spec. apply SFltb_irrefl. Qed.

Lemma ltb_asym (x y : float) : (x <? y) = true -> (y <? x) = false.
Proof.
  intros H. destruct (y <? x) eqn:E; [|reflexivity].
  pose proof (ltb_trans _ _ _ H E) as F. rewrite ltb_irrefl in F. discriminate.
Qed.

Lemma is_number_spec (x : float) :
  PyFloat.is_number x = true <-> SFcompare (Prim2SF x) (Prim2SF x) <> None.
Proof.
  unfold PyFloat.is_number. rewrite eqb_spec. unfold SFeqb.
  destruct (Prim2SF x) as [[|]|[|]| |[|] m e]; simpl;
    change (PosDef.Pos.compare_cont Eq) with Pos.compare;
    rewrite ?Z.compare_refl, ?Pos.compare_refl; simpl;
    split; congruence.
Qed.

Lemma SFcompare_defined (a b : spec_float) :
  SFcompare a a <> None -> SFcompare b b <> None -> SFcompare a b <> None.
Proof.
  destruct a as [[|]|[|]| |[|] ma ea], b as [[|]|[|]| |[|] mb eb]; simpl; congruence.
Qed.

Lemma ltb_is_number_l (x y : float) : (x <? y) = true -> PyFloat.is_number x = true.
Proof.
  rewrite ltb_spec, is_number_spec. intros H. apply SFltb_comparable in H.
  destruct (Prim2SF x) as [[|]|[|]| |[|] m e], (Prim2SF y) as [[|]|[|]| |[|] m' e'];
    simpl in *; congruence.
Qed.

Lemma ltb_is_number_r (x y : float) : (x <? y) = true -> PyFloat.is_number y = true.
Proof.
  rewrite ltb_spec, is_number_spec. intros H. apply SFltb_comparable in H.
  destruct (Prim2SF x) as [[|]|[|]| |[|] m e], (Prim2SF y) as [[|]|[|]| |[|] m' e'];
    simpl in *; congruence.
Qed.

Lemma leb_of_not_ltb (x y : float) :
  PyFloat.is_number x = true -> PyFloat.is_number y = true -> (x <? y) = false -> (y <=? x) = true.
Proof.
  rewrite !is_number_spec, ltb_spec, leb_spec. intros Hx Hy.
  apply SFleb_of_not_ltb, SFcompare_defined; assumption.
Qed.

Lemma ltb_of_leb_of_ltb (x y z : float) : (x <=? y) = true -> (y <? z) = true -> (x <? z) = true.
Proof.
  rewrite leb_spec, !ltb_spec. unfold SFleb, SFltb, SFcompare.
  destruct (Prim2SF x) as [[|]|[|]| |[|] ma ea], (Prim2SF y) as [[|]|[|]| |[|] mb eb],
    (Prim2SF z) as [[|]|[|]| |[|] mc ec];
    try discriminate; try reflexivity;
    intros Hab Hbc; change (PosDef.Pos.compare_cont Eq) with Pos.compare in *;
    cmp_cases; simpl in *; try discriminate; try reflexivity; subst; try lia.
Qed.

(** Signs of the values that conversion from digits yields. *)













End FloatFacts.

(** ** Strings and keys *)

Lemma str_eqb_refl (a : str) : str_eqb a a = true.
Proof. induction a as [|x a IH]; simpl; [reflexivity|]. now rewrite N.eqb_refl. Qed.

Lemma str_eqb_eq (a b : str) : str_eqb a b = true <-> a = b.
Proof.
  split; [|intros ->; apply str_eqb_refl].
  revert b; induction a as [|x a IH]; intros [|y b]; simpl; try discriminate; [reflexivity|].
  rewrite andb_true_iff, N.eqb_eq. intros [-> H]. f_equal. now apply IH.
Qed.

Lemma str_eqb_neq (a b : str) : str_eqb a b = false <-> a <> b.
Proof.
  destruct (str_eqb a b) eqn:E.
  - apply str_eqb_eq in E. split; [discriminate|congruence].
  - split; [|reflexivity]. intros _ H. apply str_eqb_eq in H. congruence.
Qed.

Lemma value_eqb_refl (v : value) : value_eqb v v = true.
Proof.
  destruct v as [x|z|x]; simpl.
  - apply str_eqb_refl.
  - apply Z.eqb_refl.
  - apply orb_true_iff. right. now apply FloatAxioms.Leibniz.eqb_spec.
Qed.

Lemma items_eqb_refl (l : list (str * value)) : items_eqb l l = true.
Proof.
  induction l as [|[k v] l IH]; simpl; [reflexivity|].
  now rewrite str_eqb_refl, value_eqb_refl.
Qed.

Lemma key_eqb_refl (k : warning_key) : key_eqb k k = true.
Proof.
  destruct k as [c [l|]]; unfold key_eqb; simpl; rewrite str_eqb_refl; simpl;
    [apply items_eqb_refl|reflexivity].
Qed.

Lemma key_eqb_code (k1 k2 : warning_key) : key_eqb k1 k2 = true -> fst k1 = fst k2.
Proof. unfold key_eqb. rewrite andb_true_iff. intros [H _]. now apply str_eqb_eq. Qed.

Lemma _warning_key_code (w : Warning) : fst (_warning_key w) = code w.
Proof. unfold _warning_key. now destruct (context w). Qed.

(** ** Adding a warning *)

Section AddWarning.

Context {py : PyLib}.

Lemma forallb_negb_existsb {A} (f : A -> bool) (l : list A) :
  forallb (fun x => negb (f x)) l = negb (existsb f l).
Proof. induction l as [|x l IH]; simpl; [reflexivity|]. now rewrite IH, negb_orb. Qed.

Lemma add_warning_eq (ws : list Warning) c ctx sv msg :
  add_warning ws c ctx sv msg =
  if key_present (_warning_key (make_warning c ctx sv msg)) ws
  then ws else ws ++ [make_warning c ctx sv msg].
Proof.
  unfold add_warning, key_present. rewrite forallb_negb_existsb.
  now destruct (existsb _ ws).
Qed.

Lemma add_warning_mono (ws : list Warning) c ctx sv msg (w : Warning) :
  In w ws -> In w (add_warning ws c ctx sv msg).
Proof.
  rewrite add_warning_eq. destruct (key_present _ ws); [tauto|].
  intros H. apply in_or_app. now left.
Qed.

Lemma add_warning_fresh (ws : list Warning) c ctx sv msg :
  key_present (_warning_key (make_warning c ctx sv msg)) ws = false ->
  add_warning ws c ctx sv msg = ws ++ [make_warning c ctx sv msg].
Proof. rewrite add_warning_eq. now intros ->. Qed.

Lemma add_warning_known (ws : list Warning) c ctx sv msg :
  key_present (_warning_key (make_warning c ctx sv msg)) ws = true ->
  add_warning ws c ctx sv msg = ws.
Proof. rewrite add_warning_eq. now intros ->. Qed.

Lemma key_present_app (k : warning_key) (a b : list Warning) :
  key_present k (a ++ b) = key_present k a || key_present k b.
Proof. unfold key_present. apply existsb_app. Qed.

Lemma add_warning_key_present (ws : list Warning) c ctx sv msg :
  key_present (_warning_key (make_warning c ctx sv msg)) (add_warning ws c ctx sv msg) = true.
Proof.
  rewrite add_warning_eq.
  destruct (key_present _ ws) eqn:E; [exact E|].
  rewrite key_present_app. apply orb_true_iff. right.
  unfold key_present. simpl. now rewrite key_eqb_refl.
Qed.

(** The key of the warning that is built depends on the code and the context
    alone. *)
Lemma make_warning_key c ctx sv msg sv' msg' :
  _warning_key (make_warning c ctx sv msg) = _warning_key (make_warning c ctx sv' msg').
Proof.
  unfold make_warning.
  destruct sv, msg, sv', msg';
    repeat match goal with |- context [_default_warning_info ?a ?b] =>
             destruct (_default_warning_info a b) end;
    reflexivity.
Qed.

Lemma make_warning_code c ctx sv msg :
  code (make_warning c ctx sv msg) = _standardize_warning_code c.
Proof.
  unfold make_warning.
  destruct sv, msg;
    repeat match goal with |- context [_default_warning_info ?a ?b] =>
             destruct (_default_warning_info a b) end;
    reflexivity.
Qed.

Lemma has_warning_of_code (ws : list Warning) (c : str) (w : Warning) :
  In w ws -> code w = _standardize_warning_code c -> has_warning ws c = true.
Proof.
  intros Hin Hc. unfold has_warning. apply existsb_exists. exists w. split; [assumption|].
  destruct w as [wc wsv wm wctx]. simpl in Hc. subst wc. now rewrite str_eqb_refl.
Qed.

Lemma key_present_has_warning (ws : list Warning) c ctx sv msg :
  key_present (_warning_key (make_warning c ctx sv msg)) ws = true ->
  has_warning ws c = true.
Proof.
  unfold key_present. rewrite existsb_exists. intros [w [Hin Hk]].
  apply has_warning_of_code with w; [assumption|].
  apply key_eqb_code in Hk. rewrite !_warning_key_code in Hk.
  now rewrite Hk, make_warning_code.
Qed.

Lemma has_warning_add_warning (ws : list Warning) c ctx sv msg :
  has_warning (add_warning ws c ctx sv msg) c = true.
Proof. eapply key_present_has_warning, add_warning_key_present. Qed.

Lemma has_warning_mono (ws ws' : list Warning) (c : str) :
  (forall w, In w ws -> In w ws') -> has_warning ws c = true -> has_warning ws' c = true.
Proof.
  unfold has_warning. rewrite !existsb_exists. intros H [w [Hin Hw]]. exists w. auto.
Qed.

End AddWarning.

(** ** Deduplication of warnings *)

Section Dedup.

Context {py : PyLib}.

Lemma count_key_absent (k : warning_key) (ws : list Warning) :
  key_present k ws = false -> count_key k ws = 0.
Proof.
  unfold key_present, count_key. induction ws as [|w ws IH]; simpl; [reflexivity|].
  rewrite orb_false_iff. intros [-> H]. now apply IH.
Qed.

Lemma add_warning_twice (ws : list Warning) c ctx sv msg sv' msg' :
  add_warning (add_warning ws c ctx sv msg) c ctx sv' msg' = add_warning ws c ctx sv msg.
Proof.
  apply add_warning_known.
  rewrite (make_warning_key c ctx sv' msg' sv msg). apply add_warning_key_present.
Qed.

(** C6. Adding a warning whose key (code, sorted context items) is the key of
    a warning already in the sequence changes nothing; issuing the same code
    and context twice gives the sequence that issuing it once gives; and from
    a sequence without that key, the two calls leave exactly one warning with
    it. *)
Theorem add_warning_dedup_idempotent (ws : list Warning) (c : str) (ctx : option dict)
    (sv sv' : option WarningSeverity) (msg msg' : option str) :
  let k := _warning_key (make_warning c ctx sv msg) in
  (key_present k ws = true -> add_warning ws c ctx sv msg = ws)
  /\ add_warning (add_warning ws c ctx sv msg) c ctx sv' msg' = add_warning ws c ctx sv msg
  /\ (key_present k ws = false ->
      count_key k (add_warning (add_warning ws c ctx sv msg) c ctx sv' msg') = 1).
Proof.
  intros k. split; [|split].
  - apply add_warning_known.
  - apply add_warning_twice.
  - intros Hk. rewrite add_warning_twice, add_warning_fresh by exact Hk.
    unfold count_key. rewrite filter_app, length_app.
    fold (count_key k ws). rewrite count_key_absent by exact Hk.
    simpl. fold k. now rewrite key_eqb_refl.
Qed.

End Dedup.

(** ** Standardization of warning codes *)

Section Standardize.

Context {py : PyLib}.

Lemma table_get_in (k v : str) (t : list (str * str)) :
  table_get k t = Some v -> In (k, v) t.
Proof.
  induction t as [|[k' v'] t IH]; simpl; [discriminate|].
  destruct (str_eqb k' k) eqn:E.
  - apply str_eqb_eq in E. intros [= ->]. left. now subst.
  - intros H. right. now apply IH.
Qed.

(** No short code of the table has the standard form, and none is mapped to
    itself. *)
Lemma mapped_code_is_renamed (c std : str) :
  table_get c WARNING_CODE_MAP = Some std ->
  _standardize_warning_code c = std /\ str_eqb std c = false.
Proof.
  intros H. apply table_get_in in H. unfold WARNING_CODE_MAP in H. simpl in H.
  repeat (destruct H as [H|H]; [injection H as <- <-; vm_compute; split; reflexivity|]).
  contradiction.
Qed.

Lemma dict_get_app_miss (k : str) (dc : dict) (v : value) :
  dict_get k dc = None -> dict_get k (dc ++ [(k, v)]) = Some v.
Proof.
  induction dc as [|[k' v'] dc IH]; simpl.
  - now rewrite str_eqb_refl.
  - destruct (str_eqb k' k); [discriminate|exact IH].
Qed.

Lemma dict_get_setdefault (k : str) (v : value) (dc : dict) :
  dict_get k (setdefault k v dc) =
  Some (match dict_get k dc with Some old => old | None => v end).
Proof.
  unfold setdefault. destruct (dict_get k dc) eqn:E; [exact E|].
  now apply dict_get_app_miss.
Qed.

Lemma setdefault_nonempty (k : str) (v : value) (dc : dict) : setdefault k v dc <> [].
Proof.
  unfold setdefault. destruct (dict_get k dc) eqn:E.
  - destruct dc; [discriminate|discriminate].
  - destruct dc; discriminate.
Qed.

Lemma make_warning_context c ctx sv msg :
  context (make_warning c ctx sv msg) =
  if negb (str_eqb (_standardize_warning_code c) c)
  then Some (setdefault (u "legacy_code") (VStr c) (context_or_empty ctx))
  else context_or_none ctx.
Proof.
  unfold make_warning.
  destruct sv, msg;
    repeat match goal with |- context [_default_warning_info ?a ?b] =>
             destruct (_default_warning_info a b) end;
    simpl; fold (context_or_empty ctx);
    (destruct (negb (str_eqb (_standardize_warning_code c) c));
     [ pose proof (setdefault_nonempty (u "legacy_code") (VStr c) (context_or_empty ctx)) as Hne;
       destruct (setdefault (u "legacy_code") (VStr c) (context_or_empty ctx));
       [congruence|reflexivity]
     | destruct ctx as [[|]|]; reflexivity ]).
Qed.

(** C8, as the code has it. A short code of the table is stored as its
    standardized code, and [legacy_code] of the context holds the short code
    unless the caller's context already had a [legacy_code], which stays. A
    code of the standard form and a code unknown to the table are both stored
    as they are, with the caller's context and no [legacy_code] added. *)
Theorem warning_code_standardization (c : str) (ctx : option dict)
    (sv : option WarningSeverity) (msg : option str) :
  let w := make_warning c ctx sv msg in
  (forall std, table_get c WARNING_CODE_MAP = Some std ->
     code w = std /\
     exists dc, context w = Some dc /\
       dict_get (u "legacy_code") dc =
       Some (match dict_get (u "legacy_code") (context_or_empty ctx) with
             | Some old => old
             | None => VStr c
             end))
  /\ (match_ STANDARD_CODE_PATTERN c <> None ->
      code w = c /\ context w = context_or_none ctx)
  /\ (match_ STANDARD_CODE_PATTERN c = None -> table_get c WARNING_CODE_MAP = None ->
      code w = c /\ context w = context_or_none ctx).
Proof.
  intros w. unfold w. rewrite make_warning_code, make_warning_context.
  split; [|split].
  - intros std H. destruct (mapped_code_is_renamed _ _ H) as [-> Hne].
    rewrite Hne. simpl. split; [reflexivity|].
    eexists. split; [reflexivity|]. apply dict_get_setdefault.
  - intros H. unfold _standardize_warning_code.
    destruct (match_ STANDARD_CODE_PATTERN c); [|congruence].
    now rewrite str_eqb_refl.
  - intros H1 H2. unfold _standardize_warning_code. rewrite H1, H2.
    now rewrite str_eqb_refl.
Qed.

End Standardize.

(** An unknown code keeps no trace in the context: the warning built for it
    has no context at all, so no [legacy_code]. *)
Lemma unknown_code_has_no_legacy_code :
  let w := make_warning (u "custom_code") None None None in
  table_get (u "custom_code") WARNING_CODE_MAP = None
  /\ match_ STANDARD_CODE_PATTERN (u "custom_code") = None
  /\ code w = u "custom_code"
  /\ context w = None.
Proof. vm_compute. repeat split. Qed.

Lemma warning_code_standardization_witness :
  let w := make_warning (u "net_mismatch") None None None in
  code w = u "VAL-CHK-001" /\
  exists dc, context w = Some dc /\
    dict_get (u "legacy_code") dc = Some (VStr (u "net_mismatch")).
Proof.
  exact (proj1 (warning_code_standardization (u "net_mismatch") None None None)
           (u "VAL-CHK-001") eq_refl).
Defined.

Lemma add_warning_dedup_idempotent_witness :
  let first := add_warning [] (u "net_mismatch") None None None in
  add_warning first (u "net_mismatch") None None None = first
  /\ count_key (_warning_key (make_warning (u "net_mismatch") None None None))
       (add_warning first (u "net_mismatch") None (Some INFO) None) = 1.
Proof.
  split.
  - exact (proj1 (proj2 (add_warning_dedup_idempotent [] (u "net_mismatch") None
                           None None None None))).
  - exact (proj2 (proj2 (add_warning_dedup_idempotent [] (u "net_mismatch") None
                           None (Some INFO) None None)) eq_refl).
Defined.

(** ** The finalizer *)

Section Finalizer.

Context {py : PyLib}.

Lemma finalize_record_eq (record : ParsedRecord) (ws : list Warning) :
  finalize_record record ws =
  let ws1 := validate_time_order record (validate_weights record ws) in
  let record' := fst (infer_net record ws1) in
  let ws2 := check_net record' (snd (infer_net record ws1)) in
  set_parse_confidence (confidence_of (set_warnings ws2 record') ws2)
    (set_warnings ws2 record').
Proof. unfold finalize_record. now destruct (infer_net _ _). Qed.

Lemma check_net_mono (record : ParsedRecord) (ws : list Warning) (w : Warning) :
  In w ws -> In w (check_net record ws).
Proof.
  unfold check_net.
  destruct (net_weight_kg record), (gross_weight_kg record), (tare_weight_kg record); auto.
  destruct (_ <? _)%float; auto using add_warning_mono.
Qed.

(** The score lies between 0 and 1 whatever the record and its warnings. *)
Lemma confidence_of_bounds (record : ParsedRecord) (ws : list Warning) :
  (0 <=? confidence_of record ws)%float = true /\
  (confidence_of record ws <=? 1)%float = true.
Proof.
  unfold confidence_of.
  destruct (has_warning ws (u "gross_inferred_from_time_weight")),
    (has_warning ws (u "tare_inferred_from_time_weight")),
    (has_warning ws (u "net_inferred_from_gross_tare")),
    (has_warning ws (u "net_mismatch")),
    (partner_name record), (item_name record), (timestamp record);
    vm_compute; split; reflexivity.
Qed.

(** C4. The confidence of a finalized record lies in [0.0, 1.0]; it is
    exactly 1.0 when the partner name, the item name and the timestamp are
    set and none of the four inference and mismatch warnings is present. *)
Theorem parse_confidence_bounds (record : ParsedRecord) (ws : list Warning) :
  let final := finalize_record record ws in
  ((0 <=? parse_confidence final)%float = true /\
   (parse_confidence final <=? 1)%float = true)
  /\ (partner_name final <> None -> item_name final <> None -> timestamp final <> None ->
      has_warning (warnings final) (u "gross_inferred_from_time_weight") = false ->
      has_warning (warnings final) (u "tare_inferred_from_time_weight") = false ->
      has_warning (warnings final) (u "net_inferred_from_gross_tare") = false ->
      has_warning (warnings final) (u "net_mismatch") = false ->
      parse_confidence final = 1.0%float).
Proof.
  intros final. unfold final. rewrite finalize_record_eq. cbv zeta.
  set (ws1 := validate_time_order record (validate_weights record ws)).
  set (record' := fst (infer_net record ws1)).
  set (ws2 := check_net record' (snd (infer_net record ws1))).
  split; [apply confidence_of_bounds|].
  simpl. intros Hp Hi Ht Hg Hta Hn Hm.
  unfold confidence_of. simpl. rewrite Hg, Hta, Hn, Hm.
  destruct (partner_name record'); [|congruence].
  destruct (item_name record'); [|congruence].
  destruct (timestamp record'); [|congruence].
  reflexivity.
Qed.

(** The net-weight law where both weights are non-zero: the net weight is
    set to the difference and the inference warning is present. *)
Lemma net_inferred_when_nonzero (record : ParsedRecord) (ws : list Warning)
    (gross tare : float) :
  net_weight_kg record = None ->
  gross_weight_kg record = Some gross -> tare_weight_kg record = Some tare ->
  PyFloat.truthy gross = true -> PyFloat.truthy tare = true ->
  let final := finalize_record record ws in
  net_weight_kg final = Some (gross - tare)%float /\
  has_warning (warnings final) (u "net_inferred_from_gross_tare") = true.
Proof.
  intros Hn Hg Ht Tg Tt final. unfold final. rewrite finalize_record_eq. cbv zeta.
  unfold infer_net. rewrite Hn, Hg, Ht, Tg, Tt. simpl. split; [reflexivity|].
  eapply has_warning_mono; [intros w; apply check_net_mono|].
  apply has_warning_add_warning.
Qed.

(** The mismatch half of the law: with the three weights set on entry and
    more than the tolerance apart, the mismatch warning is present. *)
Lemma net_mismatch_flagged (record : ParsedRecord) (ws : list Warning)
    (gross tare net : float) :
  net_weight_kg record = Some net ->
  gross_weight_kg record = Some gross -> tare_weight_kg record = Some tare ->
  (1.0 <? abs (gross - tare - net))%float = true ->
  has_warning (warnings (finalize_record record ws)) (u "net_mismatch") = true.
Proof.
  intros Hn Hg Ht Hd. rewrite finalize_record_eq. cbv zeta.
  unfold infer_net. rewrite Hn. simpl.
  unfold check_net. rewrite Hn, Hg, Ht.
  unfold ValidationThresholds.NET_WEIGHT_TOLERANCE_KG. rewrite Hd.
  apply has_warning_add_warning.
Qed.

(** C1, at a record whose tare weight is 0 kg: the gross and tare weights are
    both set and the net weight is not, yet the finalizer leaves the net
    weight unset and adds no inference warning. *)
Theorem net_not_inferred_from_zero_tare :
  let record :=
    set_tare_weight_kg (Some 0%float) (set_gross_weight_kg (Some 1000%float) empty_record) in
  let final := finalize_record record [] in
  net_weight_kg record = None /\
  gross_weight_kg record = Some 1000%float /\
  tare_weight_kg record = Some 0%float /\
  net_weight_kg final = None /\
  has_warning (warnings final) (u "net_inferred_from_gross_tare") = false.
Proof. vm_compute. repeat split. Qed.

End Finalizer.

Lemma net_inferred_when_nonzero_witness :
  net_weight_kg
    (finalize_record
       (set_tare_weight_kg (Some 400%float) (set_gross_weight_kg (Some 1000%float) empty_record))
       [])
  = Some (1000 - 400)%float.
Proof.
  refine (proj1 (net_inferred_when_nonzero
                   (set_tare_weight_kg (Some 400%float)
                      (set_gross_weight_kg (Some 1000%float) empty_record))
                   [] 1000%float 400%float _ _ _ _ _));
    reflexivity.
Defined.

Lemma net_mismatch_flagged_witness :
  has_warning
    (warnings
       (finalize_record
          (set_net_weight_kg (Some 500%float)
             (set_tare_weight_kg (Some 400%float)
                (set_gross_weight_kg (Some 1000%float) empty_record)))
          []))
    (u "net_mismatch") = true.
Proof.
  refine (net_mismatch_flagged
            (set_net_weight_kg (Some 500%float)
               (set_tare_weight_kg (Some 400%float)
                  (set_gross_weight_kg (Some 1000%float) empty_record)))
            [] 1000%float 400%float 500%float _ _ _ _);
    reflexivity.
Defined.

Lemma parse_confidence_bounds_witness :
  let record :=
    set_timestamp (Some (u "2026-02-02 10:00:00"))
      (set_item_name (Some (u "국판"))
         (set_partner_name (Some (u "신성")) empty_record)) in
  parse_confidence (finalize_record record []) = 1.0%float.
Proof.
  refine (proj2 (parse_confidence_bounds
                   (set_timestamp (Some (u "2026-02-02 10:00:00"))
                      (set_item_name (Some (u "국판"))
                         (set_partner_name (Some (u "신성")) empty_record))) [])
            _ _ _ _ _ _ _);
    vm_compute; congruence.
Defined.

(** ** Range checks of the weights *)

Section WeightChecks.

Context {py : PyLib}.

Local Open Scope float_scope.

Lemma negative_weight_warning_eq (name : str) (v : float) :
  negative_weight_warning name v =
  Build_Warning (u "VAL-CHK-004") ERROR (u "음수 무게 감지: " ++ name)
    (Some [(u "field", VStr name); (u "value", VFloat v);
           (u "legacy_code", VStr (u "negative_weight"))]).
Proof. reflexivity. Qed.

Lemma weight_exceeds_limit_warning_eq (name : str) (v : float) :
  weight_exceeds_limit_warning name v =
  Build_Warning (u "VAL-CHK-005") WARN (u "무게 범위 초과: " ++ name)
    (Some [(u "field", VStr name); (u "value", VFloat v);
           (u "legacy_code", VStr (u "weight_exceeds_limit"))]).
Proof. reflexivity. Qed.

(** No value is both below the minimum and above the maximum. *)
Lemma not_below_and_above (v : float) :
  (v <? ValidationThresholds.MIN_WEIGHT_KG) = true ->
  (ValidationThresholds.MAX_WEIGHT_KG <? v) = true -> False.
Proof.
  intros H1 H2. pose proof (FloatFacts.ltb_trans _ _ _ H2 H1) as H.
  vm_compute in H. discriminate.
Qed.

Lemma validate_weight_eq (ws : list Warning) (name : str) (v : float) :
  validate_weight ws (name, Some v) =
  if v <? ValidationThresholds.MIN_WEIGHT_KG
  then add_warning ws (u "negative_weight") (weight_context name v) (Some ERROR) None
  else if ValidationThresholds.MAX_WEIGHT_KG <? v
       then add_warning ws (u "weight_exceeds_limit") (weight_context name v) (Some WARN) None
       else ws.
Proof.
  unfold validate_weight.
  destruct (v <? ValidationThresholds.MIN_WEIGHT_KG) eqn:E1; [|reflexivity].
  destruct (ValidationThresholds.MAX_WEIGHT_KG <? v) eqn:E2; [|reflexivity].
  destruct (not_below_and_above v E1 E2).
Qed.

Lemma validate_weight_mono (ws : list Warning) (f : str * option float) (w : Warning) :
  In w ws -> In w (validate_weight ws f).
Proof.
  destruct f as [name [v|]]; [|trivial]. rewrite validate_weight_eq.
  destruct (_ <? _); [apply add_warning_mono|].
  destruct (_ <? _); [apply add_warning_mono|trivial].
Qed.

Lemma validate_fields_mono (fields : list (str * option float)) (ws : list Warning)
    (w : Warning) :
  In w ws -> In w (fold_left validate_weight fields ws).
Proof.
  revert ws. induction fields as [|f fields IH]; intros ws H; simpl; [assumption|].
  apply IH. now apply validate_weight_mono.
Qed.

Lemma add_warning_in (ws : list Warning) c ctx sv msg (w : Warning) :
  In w (add_warning ws c ctx sv msg) -> In w ws \/ w = make_warning c ctx sv msg.
Proof.
  rewrite add_warning_eq. destruct (key_present _ ws); [tauto|].
  intros H. apply in_app_or in H. destruct H as [H|[H|[]]]; [now left|now right].
Qed.

Lemma validate_weight_in (ws : list Warning) (f : str * option float) (w : Warning) :
  In w (validate_weight ws f) -> In w ws \/ from_field [f] w.
Proof.
  destruct f as [name [v|]]; [|now left]. rewrite validate_weight_eq.
  destruct (v <? _) eqn:E1; [|destruct (_ <? v) eqn:E2]; intros H.
  - apply add_warning_in in H. destruct H as [H| ->]; [now left|right].
    exists name, v. split; [now left|]. left. now split.
  - apply add_warning_in in H. destruct H as [H| ->]; [now left|right].
    exists name, v. split; [now left|]. right. now split.
  - now left.
Qed.

Lemma from_field_incl (a b : list (str * option float)) (w : Warning) :
  (forall f, In f a -> In f b) -> from_field a w -> from_field b w.
Proof. intros H [name [v [Hin Hw]]]. exists name, v. split; auto. Qed.

Lemma validate_fields_in (fields : list (str * option float)) (ws : list Warning)
    (w : Warning) :
  In w (fold_left validate_weight fields ws) -> In w ws \/ from_field fields w.
Proof.
  revert ws. induction fields as [|f fields IH]; intros ws H; simpl in H; [now left|].
  apply IH in H. destruct H as [H|H].
  - apply validate_weight_in in H. destruct H as [H|H]; [now left|right].
    eapply from_field_incl; [|exact H]. intros g [<-|[]]. now left.
  - right. eapply from_field_incl; [|exact H]. intros g Hg. now right.
Qed.

(** Keys: the code tells the two warnings apart, the field name tells two
    warnings of one code apart. *)
Lemma key_negative_vs_exceeds (n n' : str) (v v' : float) :
  key_eqb (_warning_key (weight_exceeds_limit_warning n v))
    (_warning_key (negative_weight_warning n' v')) = false /\
  key_eqb (_warning_key (negative_weight_warning n v))
    (_warning_key (weight_exceeds_limit_warning n' v')) = false.
Proof. split; reflexivity. Qed.

Lemma key_same_code_other_field (n n' : str) (v v' : float) :
  n <> n' ->
  key_eqb (_warning_key (negative_weight_warning n v))
    (_warning_key (negative_weight_warning n' v')) = false /\
  key_eqb (_warning_key (weight_exceeds_limit_warning n v))
    (_warning_key (weight_exceeds_limit_warning n' v')) = false.
Proof.
  intros H. apply str_eqb_neq in H.
  rewrite negative_weight_warning_eq, weight_exceeds_limit_warning_eq.
  rewrite negative_weight_warning_eq, weight_exceeds_limit_warning_eq.
  unfold key_eqb, _warning_key. cbn [context code fst snd].
  change (sorted_items [(u "field", VStr n); (u "value", VFloat v);
                        (u "legacy_code", VStr (u "negative_weight"))])
    with [(u "field", VStr n); (u "legacy_code", VStr (u "negative_weight"));
          (u "value", VFloat v)].
  change (sorted_items [(u "field", VStr n'); (u "value", VFloat v');
                        (u "legacy_code", VStr (u "negative_weight"))])
    with [(u "field", VStr n'); (u "legacy_code", VStr (u "negative_weight"));
          (u "value", VFloat v')].
  change (sorted_items [(u "field", VStr n); (u "value", VFloat v);
                        (u "legacy_code", VStr (u "weight_exceeds_limit"))])
    with [(u "field", VStr n); (u "legacy_code", VStr (u "weight_exceeds_limit"));
          (u "value", VFloat v)].
  change (sorted_items [(u "field", VStr n'); (u "value", VFloat v');
                        (u "legacy_code", VStr (u "weight_exceeds_limit"))])
    with [(u "field", VStr n'); (u "legacy_code", VStr (u "weight_exceeds_limit"));
          (u "value", VFloat v')].
  cbn [items_eqb value_eqb]. rewrite H, !str_eqb_refl. split; reflexivity.
Qed.

(** A list that holds no warning of a code has no key of that code. *)
Lemma key_absent_of_code (ws : list Warning) (c : str) (w : Warning) :
  has_warning ws c = false -> code w = _standardize_warning_code c ->
  key_present (_warning_key w) ws = false.
Proof.
  intros H Hc. destruct (key_present (_warning_key w) ws) eqn:E; [|reflexivity].
  unfold key_present in E. apply existsb_exists in E. destruct E as [w0 [Hin Hk]].
  apply key_eqb_code in Hk. rewrite !_warning_key_code in Hk.
  rewrite (has_warning_of_code ws c w0 Hin) in H; [discriminate|congruence].
Qed.

Lemma key_present_false_iff (k : warning_key) (ws : list Warning) :
  key_present k ws = false <-> forall w, In w ws -> key_eqb (_warning_key w) k = false.
Proof.
  unfold key_present. split.
  - intros H w Hin. destruct (key_eqb (_warning_key w) k) eqn:E; [|reflexivity].
    assert (existsb (fun e => key_eqb (_warning_key e) k) ws = true) as F
        by (apply existsb_exists; eauto).
    congruence.
  - intros H. destruct (existsb _ ws) eqn:E; [|reflexivity].
    apply existsb_exists in E. destruct E as [w [Hin Hk]]. rewrite (H w Hin) in Hk.
    discriminate.
Qed.

Lemma keys_free_step (name : str) (v : float) (ws : list Warning) (f : str * option float) :
  fst f <> name -> keys_free name v ws -> keys_free name v (validate_weight ws f).
Proof.
  intros Hne [H1 H2]. unfold keys_free. rewrite !key_present_false_iff in *.
  split; intros w Hin; apply validate_weight_in in Hin;
    (destruct Hin as [Hin|[n [x [[Hf|[]] Hw]]]]; [auto|]); subst f;
    change (n <> name) in Hne; destruct Hw as [[_ ->]|[_ ->]].
  - exact (proj1 (key_same_code_other_field n name x v Hne)).
  - exact (proj1 (key_negative_vs_exceeds n name x v)).
  - exact (proj2 (key_negative_vs_exceeds n name x v)).
  - exact (proj2 (key_same_code_other_field n name x v Hne)).
Qed.

Lemma validate_weight_adds (name : str) (v : float) (ws : list Warning) :
  keys_free name v ws ->
  ((v <? ValidationThresholds.MIN_WEIGHT_KG) = true ->
   In (negative_weight_warning name v) (validate_weight ws (name, Some v)))
  /\ ((ValidationThresholds.MAX_WEIGHT_KG <? v) = true ->
      In (weight_exceeds_limit_warning name v) (validate_weight ws (name, Some v))).
Proof.
  intros [H1 H2]. rewrite validate_weight_eq. split; intros E.
  - rewrite E. unfold negative_weight_warning in *. rewrite add_warning_fresh by exact H1.
    apply in_or_app. right. now left.
  - destruct (v <? _) eqn:E1; [destruct (not_below_and_above v E1 E)|].
    rewrite E. unfold weight_exceeds_limit_warning in *.
    rewrite add_warning_fresh by exact H2. apply in_or_app. right. now left.
Qed.

Lemma validate_fields_adds (fields : list (str * option float)) (name : str) (v : float)
    (ws : list Warning) :
  NoDup (map fst fields) -> In (name, Some v) fields -> keys_free name v ws ->
  ((v <? ValidationThresholds.MIN_WEIGHT_KG) = true ->
   In (negative_weight_warning name v) (fold_left validate_weight fields ws))
  /\ ((ValidationThresholds.MAX_WEIGHT_KG <? v) = true ->
      In (weight_exceeds_limit_warning name v) (fold_left validate_weight fields ws)).
Proof.
  revert ws. induction fields as [|f fields IH]; intros ws Hnd Hin Hfree; [destruct Hin|].
  simpl in Hnd. inversion Hnd as [|x l Hnotin Hnd']; subst. simpl.
  destruct Hin as [->|Hin].
  - destruct (validate_weight_adds name v ws Hfree) as [A B].
    split; intros E; apply validate_fields_mono; auto.
  - apply IH; [assumption|assumption|]. apply keys_free_step; [|assumption].
    intros Heq. apply Hnotin. rewrite Heq.
    change name with (fst (name, Some v)). now apply in_map.
Qed.

Lemma weight_fields_names (record : ParsedRecord) :
  NoDup (map fst (weight_fields record)).
Proof.
  unfold weight_fields. simpl.
  repeat constructor; simpl; intros H;
    repeat (destruct H as [H|H]; [vm_compute in H; discriminate|]); exact H.
Qed.

(** C5, as the code has it. For each of the four weight fields that is set,
    on a warning list that holds no range warning yet, the validator adds
    [negative_weight] (VAL-CHK-004) with severity ERROR when the value is
    below 0 kg and [weight_exceeds_limit] (VAL-CHK-005) with severity WARN
    when it is above 100000 kg; the two conditions exclude each other, so at
    most one of the two warnings is added for a field. *)
Theorem weight_range_checks (record : ParsedRecord) (ws : list Warning)
    (name : str) (v : float) :
  In (name, Some v) (weight_fields record) ->
  has_warning ws (u "negative_weight") = false ->
  has_warning ws (u "weight_exceeds_limit") = false ->
  ((v <? 0) = true ->
   In (negative_weight_warning name v) (validate_weights record ws)
   /\ code (negative_weight_warning name v) = u "VAL-CHK-004"
   /\ severity (negative_weight_warning name v) = ERROR)
  /\ ((100000 <? v) = true ->
      In (weight_exceeds_limit_warning name v) (validate_weights record ws)
      /\ code (weight_exceeds_limit_warning name v) = u "VAL-CHK-005"
      /\ severity (weight_exceeds_limit_warning name v) = WARN)
  /\ ((v <? 0) = true -> (100000 <? v) = true -> False).
Proof.
  intros Hin Hn He.
  assert (keys_free name v ws) as Hfree.
  { split; [apply key_absent_of_code with (u "negative_weight")
           |apply key_absent_of_code with (u "weight_exceeds_limit")];
      auto; reflexivity. }
  destruct (validate_fields_adds (weight_fields record) name v ws
              (weight_fields_names record) Hin Hfree) as [A B].
  split; [|split].
  - intros E. split; [apply A, E|split; reflexivity].
  - intros E. split; [apply B, E|split; reflexivity].
  - apply not_below_and_above.
Qed.

End WeightChecks.

(** On a fresh warning list no field of any record gets both warnings. *)
Lemma no_field_gets_both_warnings :
  ~ exists (record : ParsedRecord) (name : str) (v v' : float),
      In (negative_weight_warning name v) (validate_weights record [])
      /\ In (weight_exceeds_limit_warning name v') (validate_weights record []).
Proof.
  intros [record [name [v [v' [H1 H2]]]]].
  apply validate_fields_in in H1, H2.
  destruct H1 as [[]|[n1 [x1 [I1 W1]]]], H2 as [[]|[n2 [x2 [I2 W2]]]].
  destruct W1 as [[L1 W1]|[_ W1]]; [|discriminate W1].
  destruct W2 as [[_ W2]|[L2 W2]]; [discriminate W2|].
  rewrite !negative_weight_warning_eq in W1.
  rewrite !weight_exceeds_limit_warning_eq in W2.
  assert (n1 = name /\ n2 = name) as [-> ->].
  { split; [injection W1|injection W2]; intros; congruence. }
  assert (x1 = x2) as Ex.
  { pose proof (weight_fields_names record) as Hnd.
    unfold weight_fields in *. simpl in I1, I2, Hnd.
    repeat match goal with
           | H : _ \/ _ |- _ => destruct H as [H|H]
           | H : (_, _) = (_, _) |- _ => injection H as ? ?
           | H : False |- _ => destruct H
           end; subst; try congruence;
      match goal with H : u _ = u _ |- _ => vm_compute in H; discriminate end. }
  subst x2. exact (not_below_and_above x1 L1 L2).
Qed.

Lemma weight_range_checks_witness :
  let record :=
    set_tare_weight_kg (Some (-5)%float)
      (set_gross_weight_kg (Some 200000%float) empty_record) in
  In (negative_weight_warning (u "tare_weight_kg") (-5)) (validate_weights record [])
  /\ In (weight_exceeds_limit_warning (u "gross_weight_kg") 200000)
       (validate_weights record []).
Proof.
  split.
  - refine (proj1 (proj1 (weight_range_checks
                     (set_tare_weight_kg (Some (-5)%float)
                        (set_gross_weight_kg (Some 200000%float) empty_record))
                     [] (u "tare_weight_kg") (-5)%float _ eq_refl eq_refl) eq_refl)).
    right. left. reflexivity.
  - refine (proj1 (proj1 (proj2 (weight_range_checks
                     (set_tare_weight_kg (Some (-5)%float)
                        (set_gross_weight_kg (Some 200000%float) empty_record))
                     [] (u "gross_weight_kg") 200000%float _ eq_refl eq_refl)) eq_refl)).
    left. reflexivity.
Defined.

(** ** Matching: repetition and the serial number after a date *)

Module ReFacts.

Lemma down_to_below (n lo : nat) : n < lo -> down_to n lo = [].
Proof. intros H. unfold down_to. replace (S n - lo) with 0 by lia. reflexivity. Qed.

Lemma down_to_step (n lo : nat) : lo <= S n -> down_to (S n) lo = S n :: down_to n lo.
Proof.
  intros H. unfold down_to. replace (S (S n) - lo) with (S (S n - lo)) by lia.
  rewrite seq_S, rev_app_distr. cbn [rev app]. f_equal. lia.
Qed.

Lemma down_to_same (n : nat) : down_to n n = [n].
Proof. unfold down_to. replace (S n - n) with 1 by lia. reflexivity. Qed.

Lemma run_length_firstn (p : char -> bool) (h : nat) (s : str) :
  firstn (run_length p (Some h) s) s = firstn h (takewhile p s).
Proof.
  revert h. induction s as [|c s IH]; intros h; simpl.
  - now destruct h.
  - destruct (p c) eqn:E.
    + destruct h as [|h]; simpl; [reflexivity|]. now rewrite IH.
    + now destruct h.
Qed.

Lemma run_length_zero (p : char -> bool) (hi : option nat) (c : char) (s : str) :
  p c = false -> run_length p hi (c :: s) = 0.
Proof. intros H. simpl. now rewrite H. Qed.

(** Inside a run of [p], the text ahead starts with a character of [p]. *)
Lemma skipn_in_run (p : char -> bool) (s : str) (k : nat) :
  k < run_length p None s -> exists c s', skipn k s = c :: s' /\ p c = true.
Proof.
  revert k. induction s as [|c s IH]; intros k H; simpl in H; [lia|].
  destruct (p c) eqn:E; [|lia].
  destruct k as [|k]; simpl; [eauto|]. apply IH. lia.
Qed.

(** Right after the whole run, the text ahead does not start with [p]. *)
Lemma skipn_after_run (p : char -> bool) (s : str) :
  match skipn (run_length p None s) s with
  | c :: _ => p c = false
  | [] => True
  end.
Proof.
  induction s as [|c s IH]; simpl; [exact I|].
  destruct (p c) eqn:E; simpl; [exact IH|exact E].
Qed.









End ReFacts.

Section SerialAfterDate.

Import ReFacts.

Lemma digit_is_no_separator (c : N) : ascii_digit c = true -> serial_separator c = false.
Proof.
  unfold ascii_digit, in_range. rewrite andb_true_iff, !N.leb_le. intros [H1 H2].
  assert (c = 48 \/ c = 49 \/ c = 50 \/ c = 51 \/ c = 52 \/ c = 53 \/ c = 54 \/ c = 55
          \/ c = 56 \/ c = 57)%N as H by lia.
  repeat (destruct H as [->|H]; [reflexivity|]). now subst.
Qed.

Lemma separator_is_no_digit (c : char) : serial_separator c = true -> ascii_digit c = false.
Proof.
  intros H. destruct (ascii_digit c) eqn:E; [|reflexivity].
  apply digit_is_no_separator in E. congruence.
Qed.

(** The digits matched at a position: none when no digit stands there. *)
Lemma digits_alternatives (st : mstate) :
  alternatives (Grp 1 (between ascii_digit 1 6)) st =
  map (fun k => close_group 1 (pos st) (advance k st))
      (down_to (run_length ascii_digit (Some 6) (rest st)) 1).
Proof. simpl. now rewrite map_map. Qed.

Lemma no_digit_inside_separators (st : mstate) (n : nat) :
  n <= run_length serial_separator None (rest st) ->
  (forall k, k < n ->
     alternatives (Grp 1 (between ascii_digit 1 6)) (advance k st) = []) .
Proof.
  intros Hn k Hk. rewrite digits_alternatives.
  destruct (skipn_in_run serial_separator (rest st) k) as [c [s' [E Hc]]]; [lia|].
  simpl. rewrite E, run_length_zero by (now apply separator_is_no_digit).
  reflexivity.
Qed.

Lemma flat_map_all_nil {A B} (f : A -> list B) (l : list A) :
  (forall x, In x l -> f x = []) -> flat_map f l = [].
Proof.
  induction l as [|x l IH]; intros H; simpl; [reflexivity|].
  rewrite H by (now left). apply IH. intros y Hy. apply H. now right.
Qed.

Lemma in_down_to (n lo k : nat) : In k (down_to n lo) -> lo <= k <= n.
Proof. unfold down_to. rewrite <- in_rev, in_seq. lia. Qed.

Lemma flat_map_down_to_last {B} (f : nat -> list B) (n : nat) :
  (forall k, k < n -> f k = []) -> flat_map f (down_to n 0) = f n.
Proof.
  intros H. destruct n as [|n].
  - rewrite down_to_same. cbn [flat_map]. apply app_nil_r.
  - rewrite down_to_step by lia. cbn [flat_map].
    rewrite (flat_map_all_nil f (down_to n 0)), app_nil_r; [reflexivity|].
    intros k Hk. apply in_down_to in Hk. apply H. lia.
Qed.

(** What the pattern matches at one position: the whole run of separators,
    then the digits, when a digit follows the run. *)
Lemma serial_first_at (p : nat) (s : str) :
  first_at SERIAL_AFTER_DATE p s =
  let n := run_length serial_separator None s in
  match run_length ascii_digit (Some 6) (skipn n s) with
  | O => None
  | m => Some (RMatch p (p + n + m) [(1, (p + n, p + n + m))])
  end.
Proof.
  unfold first_at, SERIAL_AFTER_DATE, cat.
  change (alternatives (Cat (star serial_separator) (Grp 1 (between ascii_digit 1 6)))
            (MState p s []))
    with (flat_map (alternatives (Grp 1 (between ascii_digit 1 6)))
            (map (fun k => advance k (MState p s []))
               (down_to (run_length serial_separator None s) 0))).
  cbv zeta. set (n := run_length serial_separator None s).
  assert (forall k, k < n ->
            alternatives (Grp 1 (between ascii_digit 1 6)) (advance k (MState p s [])) = [])
    as Hin by (apply no_digit_inside_separators; simpl; fold n; lia).
  rewrite flat_map_concat_map, map_map, <- flat_map_concat_map.
  rewrite (flat_map_down_to_last _ n Hin), digits_alternatives.
  cbn [rest advance pos caps].
  destruct (run_length ascii_digit (Some 6) (skipn n s)) as [|m] eqn:Em; [reflexivity|].
  rewrite down_to_step by lia. reflexivity.
Qed.

Lemma first_digit_run_skip (s : str) (n : nat) :
  n <= run_length serial_separator None s ->
  first_digit_run s = first_digit_run (skipn n s).
Proof.
  revert n. induction s as [|c s IH]; intros n H; [now destruct n|].
  destruct n as [|n]; [reflexivity|]. simpl in H.
  destruct (serial_separator c) eqn:E; [|lia].
  simpl. rewrite (separator_is_no_digit c E). apply IH. lia.
Qed.

Lemma first_digit_run_at_digit (s : str) :
  run_length ascii_digit (Some 6) s <> 0 ->
  first_digit_run s = Some (firstn (run_length ascii_digit (Some 6) s) s).
Proof.
  intros H. rewrite run_length_firstn. destruct s as [|c s]; simpl in *; [congruence|].
  destruct (ascii_digit c); [reflexivity|congruence].
Qed.

(** The first group of the leftmost match, read in the whole text. *)
Lemma serial_search_from (text : str) (p : nat) (s : str) :
  s = skipn p text ->
  match search_from SERIAL_AFTER_DATE p s with
  | Some m => Some (grp text m 1)
  | None => None
  end = first_digit_run s.
Proof.
  revert p. induction s as [|c s IH]; intros p Hs.
  - reflexivity.
  - cbn [search_from]. rewrite serial_first_at. cbv zeta.
    set (n := run_length serial_separator None (c :: s)).
    destruct (run_length ascii_digit (Some 6) (skipn n (c :: s))) as [|m] eqn:Em.
    + rewrite (IH (S p)).
      * simpl. destruct (ascii_digit c) eqn:E; [|reflexivity].
        exfalso. unfold n in Em. simpl in Em.
        rewrite (digit_is_no_separator c E) in Em. simpl in Em. rewrite E in Em.
        discriminate.
      * change (S p) with (1 + p). rewrite <- skipn_skipn, <- Hs. reflexivity.
    + rewrite (first_digit_run_skip (c :: s) n) by (unfold n; lia).
      rewrite first_digit_run_at_digit by (rewrite Em; discriminate).
      rewrite Em. unfold grp, group, span, slice.
      cbn [m_caps find fst snd Nat.eqb option_map].
      replace (p + n + S m - (p + n)) with (S m) by lia.
      now rewrite (Nat.add_comm p n), <- skipn_skipn, <- Hs.
Qed.

(** C7, as the code has it. On a line where the date pattern matches, the
    serial value is the run of ASCII digits that starts at the first ASCII
    digit after the date, cut to six digits; there is a serial value exactly
    when the remainder of the line holds a digit. A [-], a blank or a [:]
    before the digits is skipped, and none is needed. *)
Theorem serial_after_date (text : str) (date_match : rmatch) :
  search _DATE_PATTERN text = Some date_match ->
  snd (extract_date_serial text) = first_digit_run (skipn (m_end date_match) text).
Proof.
  intros H. unfold extract_date_serial. rewrite H.
  rewrite <- (serial_search_from (skipn (m_end date_match) text) 0
                (skipn (m_end date_match) text) eq_refl).
  unfold search. now destruct (search_from SERIAL_AFTER_DATE 0 _).
Qed.

End SerialAfterDate.

(** A serial value is read although no digit of the remainder stands after
    [-], a blank or [:]. *)
Lemma serial_without_separator :
  extract_date_serial (u "2026-02-02/7") = (Some (u "2026-02-02"), Some (u "7"))
  /\ option_map m_end (search _DATE_PATTERN (u "2026-02-02/7")) = Some 10
  /\ skipn 10 (u "2026-02-02/7") = u "/7"
  /\ digit_after_separator (u "/7") = false.
Proof. vm_compute. repeat split. Qed.

Lemma serial_after_date_witness :
  snd (extract_date_serial (u "계량일자: 2026-02-02 0016")) = Some (u "0016").
Proof.
  exact (serial_after_date (u "계량일자: 2026-02-02 0016") (RMatch 6 16 [(3, (14, 16)); (2, (11, 13)); (1, (6, 10))]) eq_refl).
Defined.

(** ** Fuzzy label matching *)

Section FuzzySpan.

Context {py : PyLib}.

Lemma fuzzy_step_eq (ct cl : str) (n : nat) (state : float * option nat) (start : nat) :
  fuzzy_step ct cl n state start =
  if first_char_matches (slice ct start (start + n)) cl
  then
    if (fst state <? SequenceMatcher_ratio cl (slice ct start (start + n)))%float
    then (SequenceMatcher_ratio cl (slice ct start (start + n)), Some start)
    else state
  else state.
Proof.
  unfold fuzzy_step, first_char_matches.
  destruct (slice ct start (start + n)) as [|w0 w]; [reflexivity|].
  destruct cl as [|l0 cl]; [reflexivity|].
  now destruct (w0 =? l0)%N.
Qed.

Lemma fuzzy_loop (ct cl : str) (n k : nat) :
  loop_invariant ct cl n k (fold_left (fuzzy_step ct cl n) (seq 0 k) (0%float, None)).
Proof.
  induction k as [|k IH].
  - split; [intros s' H; lia|reflexivity].
  - rewrite seq_S, fold_left_app. simpl fold_left.
    set (state := fold_left (fuzzy_step ct cl n) (seq 0 k) (0%float, None)) in *.
    destruct IH as [Hbest Hstart]. rewrite fuzzy_step_eq.
    destruct (first_char_matches (slice ct k (k + n)) cl) eqn:Ek.
    + destruct (fst state <? SequenceMatcher_ratio cl (slice ct k (k + n)))%float eqn:El.
      * split; simpl.
        -- intros s' Hs' Hm. destruct (Nat.eq_dec s' k) as [->|Hne].
           ++ apply FloatFacts.ltb_irrefl.
           ++ destruct (_ <? SequenceMatcher_ratio cl (slice ct s' (s' + n)))%float eqn:E;
                [|reflexivity].
              pose proof (FloatFacts.ltb_trans _ _ _ El E) as F.
              rewrite (Hbest s' ltac:(lia) Hm) in F. discriminate.
        -- repeat split; auto. eapply FloatFacts.ltb_is_number_r, El.
      * split.
        -- intros s' Hs' Hm. destruct (Nat.eq_dec s' k) as [->|Hne]; [exact El|].
           apply Hbest; [lia|exact Hm].
        -- destruct (snd state) as [s|]; [|exact Hstart].
           destruct Hstart as [? ?]. split; [lia|assumption].
    + split.
      * intros s' Hs' Hm. destruct (Nat.eq_dec s' k) as [->|Hne]; [congruence|].
        apply Hbest; [lia|exact Hm].
      * destruct (snd state) as [s|]; [|exact Hstart].
        destruct Hstart as [? ?]. split; [lia|assumption].
Qed.

Lemma fuzzy_threshold_is_number (n : nat) : PyFloat.is_number (fuzzy_threshold n) = true.
Proof. unfold fuzzy_threshold. now destruct (Nat.leb n _). Qed.

(** C9. [_fuzzy_label_span] returns a span only for the best-scoring window
    of the compacted text among those whose first character is the first
    character of the compacted label, and only when the ratio of that window
    is at least the threshold of the label's length: 0.66 up to length 3,
    0.85 above. The span is that window in the coordinates of the text. When
    no such window reaches the threshold, nothing is returned. *)
Theorem fuzzy_label_span_threshold (text label : str) :
  let cl := compact_text label in
  let n := length cl in
  let ratio start := SequenceMatcher_ratio cl (window text label start) in
  let scored start :=
    start + n <= length (compacted text)
    /\ first_char_matches (window text label start) cl = true in
  fuzzy_threshold n = (if Nat.leb n 3 then 0.66 else 0.85)%float
  /\ (forall span, _fuzzy_label_span text label = Some span ->
      exists start,
        scored start
        /\ (fuzzy_threshold n <=? ratio start)%float = true
        /\ (forall start', scored start' -> (ratio start <? ratio start')%float = false)
        /\ span = (nth start (index_map text) 0,
                   nth (start + n - 1) (index_map text) 0 + 1))
  /\ ((forall start, scored start -> (fuzzy_threshold n <=? ratio start)%float = false) ->
      _fuzzy_label_span text label = None).
Proof.
  intros cl n ratio scored.
  assert (forall span, _fuzzy_label_span text label = Some span ->
      exists start,
        scored start
        /\ (fuzzy_threshold n <=? ratio start)%float = true
        /\ (forall start', scored start' -> (ratio start <? ratio start')%float = false)
        /\ span = (nth start (index_map text) 0,
                   nth (start + n - 1) (index_map text) 0 + 1)) as Hsome.
  { intros span. unfold _fuzzy_label_span, scored, ratio, window, compacted, index_map.
    destruct (_compact_with_index_map text) as [ct im]. cbn [fst snd].
    fold cl. fold n.
    destruct (Nat.eqb n 0 || Nat.ltb (length ct) n) eqn:Eg; [discriminate|].
    apply orb_false_iff in Eg. destruct Eg as [Eg0 Eg1].
    apply Nat.eqb_neq in Eg0. apply Nat.ltb_ge in Eg1.
    pose proof (fuzzy_loop ct cl n (length ct - n + 1)) as [Hbest Hstart].
    destruct (fold_left (fuzzy_step ct cl n) (seq 0 (length ct - n + 1)) (0%float, None))
      as [best_score [best_start|]]; [|discriminate].
    cbn [fst snd] in *. destruct Hstart as [Hlt [Hm [Hscore Hnum]]].
    destruct (best_score <? fuzzy_threshold n)%float eqn:Et; [discriminate|].
    intros [= <-]. exists best_start. rewrite <- Hscore.
    split; [split; [lia|exact Hm]|]. split; [|split; [|reflexivity]].
    - apply FloatFacts.leb_of_not_ltb; auto using fuzzy_threshold_is_number.
    - intros start' [Hr Hm']. apply Hbest; [lia|exact Hm']. }
  split; [reflexivity|]. split; [exact Hsome|].
  intros Hnone. destruct (_fuzzy_label_span text label) as [span|] eqn:E; [|reflexivity].
  destruct (Hsome span eq_refl) as [start [Hs [Hr _]]].
  rewrite (Hnone start Hs) in Hr. discriminate.
Qed.

End FuzzySpan.

Lemma fuzzy_label_span_threshold_witness :
  exists start,
    (start + 3 <= length (compacted (u "차중랑: 1,200 kg"))
     /\ first_char_matches (window (u "차중랑: 1,200 kg") (u "차중량") start) (u "차중량") = true)
    /\ (0.66 <=? SequenceMatcher_ratio (u "차중량")
                   (window (u "차중랑: 1,200 kg") (u "차중량") start))%float = true
    /\ (0, 3) = (nth start (index_map (u "차중랑: 1,200 kg")) 0,
                 nth (start + 3 - 1) (index_map (u "차중랑: 1,200 kg")) 0 + 1).
Proof.
  assert (_fuzzy_label_span (u "차중랑: 1,200 kg") (u "차중량") = Some (0, 3)) as H
      by (vm_compute; reflexivity).
  destruct (proj1 (proj2 (fuzzy_label_span_threshold (u "차중랑: 1,200 kg") (u "차중량")))
              (0, 3) H) as [start [Hs [Hr [_ Hspan]]]].
  exists start. split; [exact Hs|]. split; [exact Hr|exact Hspan].
Defined.

(** ** Weights read from a line *)

Section WeightExtraction.

Import ReFacts.



Lemma weight_char_no_minus (c : char) : weight_char c = true -> c <> 45%N.
Proof. intros H ->. discriminate H. Qed.






End WeightExtraction.

(** ** The assembler, rule by rule *)

Section Rules.

Context {py : PyLib}.

(** Case analysis on an innermost [match] of the goal. *)
Ltac break_match :=
  match goal with
  | |- context [match ?x with _ => _ end] =>
    lazymatch x with
    | context [match _ with _ => _ end] => fail
    | _ => destruct x eqn:?
    end
  end.

Ltac unfold_rules :=
  unfold salutation_rule, date_rule, serial_rule, vehicle_rule, partner_rule,
    item_direction_rule, item_rule, direction_rule, weak_direction_rule, gross_rule,
    tare_rule, net_rule, deduction_rule, candidate_rule, timestamp_gps_rule,
    label_direction, item_name_rule, fill_float, fill_time,
    with_record, with_source, with_warnings, with_candidate.

Lemma select_value_after_label_grown (line : LineInfo) (labels : list str)
    (ws : list Warning) :
  grown ws (snd (select_value_after_label line labels ws)).
Proof.
  unfold select_value_after_label.
  destruct (best_label_span (cleaned line) labels) as [[best_span best_label]|];
    [|now left].
  destruct (strip _); [|now left]. right. eexists. reflexivity.
Qed.

Lemma select_grown (line : LineInfo) (key : string) (st : assembly) :
  grown (st_warnings st) (st_warnings (snd (select line key st)))
  /\ st_record (snd (select line key st)) = st_record st
  /\ st_candidates (snd (select line key st)) = st_candidates st
  /\ st_source (snd (select line key st)) = st_source st.
Proof.
  unfold select.
  pose proof (select_value_after_label_grown line (labels key) (st_warnings st)) as H.
  destruct (select_value_after_label line (labels key) (st_warnings st)) as [v ws].
  simpl in *. auto.
Qed.

(** The call of [select] in a rule, with what it leaves unchanged. *)
Ltac use_select :=
  match goal with
  | |- context [select ?line ?key ?st] =>
    let H := fresh "Hsel" in
    pose proof (select_grown line key st) as H;
    destruct (select line key st) as [? ?]; cbn [fst snd] in H;
    destruct H as (? & ? & ? & ?)
  end.

Ltac frame_tac :=
  intros st; unfold_rules; unfold measures; try use_select;
  repeat break_match; cbn; split; congruence.

Lemma salutation_rule_frame line : frame (salutation_rule line).
Proof. frame_tac. Qed.

Lemma date_rule_frame line : frame (date_rule line).
Proof. frame_tac. Qed.

Lemma serial_rule_frame line : frame (serial_rule line).
Proof. frame_tac. Qed.

Lemma vehicle_rule_frame line : frame (vehicle_rule line).
Proof. frame_tac. Qed.

Lemma partner_rule_frame line : frame (partner_rule line).
Proof. frame_tac. Qed.

Lemma item_direction_rule_frame line : frame (item_direction_rule line).
Proof. frame_tac. Qed.

Lemma item_rule_frame line : frame (item_rule line).
Proof. frame_tac. Qed.

Lemma direction_rule_frame line : frame (direction_rule line).
Proof. frame_tac. Qed.

Lemma weak_direction_rule_frame line : frame (weak_direction_rule line).
Proof. frame_tac. Qed.

Lemma timestamp_gps_rule_frame line : frame (timestamp_gps_rule line).
Proof. frame_tac. Qed.


























(** *** First writer wins, rule by rule *)

Ltac kept_field :=
  unfold kept_str, kept_value, str_set_and_nonempty, or_str; intros;
  try reflexivity; try congruence;
  repeat match goal with
         | H : context [match ?x with _ => _ end] |- _ => destruct x eqn:?; try discriminate
         | |- context [match ?x with _ => _ end] => destruct x eqn:?
         end;
  congruence.

Ltac kept_tac :=
  intros st; unfold_rules; try use_select;
  repeat break_match; cbn;
  repeat match goal with
         | H : st_record ?a = st_record ?b |- _ => rewrite H in *; clear H
         end;
  unfold first_writer_wins, fields_kept; cbn in *; repeat split; kept_field.

Lemma salutation_rule_kept line st :
  first_writer_wins (st_record st) (st_record (salutation_rule line st)).
Proof. revert st. kept_tac. Qed.

Lemma date_rule_kept line st :
  first_writer_wins (st_record st) (st_record (date_rule line st)).
Proof. revert st. kept_tac. Qed.

Lemma serial_rule_kept line st :
  first_writer_wins (st_record st) (st_record (serial_rule line st)).
Proof. revert st. kept_tac. Qed.

Lemma vehicle_rule_kept line st :
  first_writer_wins (st_record st) (st_record (vehicle_rule line st)).
Proof. revert st. kept_tac. Qed.

Lemma partner_rule_kept line st :
  first_writer_wins (st_record st) (st_record (partner_rule line st)).
Proof. revert st. kept_tac. Qed.

Lemma item_direction_rule_kept line st :
  first_writer_wins (st_record st) (st_record (item_direction_rule line st)).
Proof. revert st. kept_tac. Qed.

Lemma item_rule_kept line st :
  first_writer_wins (st_record st) (st_record (item_rule line st)).
Proof. revert st. kept_tac. Qed.

Lemma direction_rule_kept line st :
  first_writer_wins (st_record st) (st_record (direction_rule line st)).
Proof. revert st. kept_tac. Qed.

Lemma weak_direction_rule_kept line st :
  first_writer_wins (st_record st) (st_record (weak_direction_rule line st)).
Proof. revert st. kept_tac. Qed.

Lemma gross_rule_kept line st :
  first_writer_wins (st_record st) (st_record (gross_rule line st)).
Proof. revert st. kept_tac. Qed.

Lemma tare_rule_kept line st :
  first_writer_wins (st_record st) (st_record (tare_rule line st)).
Proof. revert st. kept_tac. Qed.

Lemma net_rule_kept line st :
  first_writer_wins (st_record st) (st_record (net_rule line st)).
Proof. revert st. kept_tac. Qed.

Lemma deduction_rule_kept line st :
  first_writer_wins (st_record st) (st_record (deduction_rule line st)).
Proof. revert st. kept_tac. Qed.

Lemma candidate_rule_kept idx line st :
  first_writer_wins (st_record st) (st_record (candidate_rule idx line st)).
Proof. revert st. kept_tac. Qed.

Lemma timestamp_gps_rule_kept line st :
  first_writer_wins (st_record st) (st_record (timestamp_gps_rule line st)).
Proof. revert st. kept_tac. Qed.

(** No rule of the loop writes the issuer. *)
Ltac issuer_tac :=
  intros st; unfold_rules; try use_select;
  repeat break_match; cbn;
  repeat match goal with
         | H : st_record ?a = st_record ?b |- _ => rewrite H in *; clear H
         end;
  reflexivity.

Lemma salutation_rule_issuer line st : issuer (st_record (salutation_rule line st)) = issuer (st_record st).
Proof. revert st. issuer_tac. Qed.

Lemma date_rule_issuer line st : issuer (st_record (date_rule line st)) = issuer (st_record st).
Proof. revert st. issuer_tac. Qed.

Lemma serial_rule_issuer line st : issuer (st_record (serial_rule line st)) = issuer (st_record st).
Proof. revert st. issuer_tac. Qed.

Lemma vehicle_rule_issuer line st : issuer (st_record (vehicle_rule line st)) = issuer (st_record st).
Proof. revert st. issuer_tac. Qed.

Lemma partner_rule_issuer line st : issuer (st_record (partner_rule line st)) = issuer (st_record st).
Proof. revert st. issuer_tac. Qed.

Lemma item_direction_rule_issuer line st : issuer (st_record (item_direction_rule line st)) = issuer (st_record st).
Proof. revert st. issuer_tac. Qed.

Lemma item_rule_issuer line st : issuer (st_record (item_rule line st)) = issuer (st_record st).
Proof. revert st. issuer_tac. Qed.

Lemma direction_rule_issuer line st : issuer (st_record (direction_rule line st)) = issuer (st_record st).
Proof. revert st. issuer_tac. Qed.

Lemma weak_direction_rule_issuer line st : issuer (st_record (weak_direction_rule line st)) = issuer (st_record st).
Proof. revert st. issuer_tac. Qed.

Lemma gross_rule_issuer line st : issuer (st_record (gross_rule line st)) = issuer (st_record st).
Proof. revert st. issuer_tac. Qed.

Lemma tare_rule_issuer line st : issuer (st_record (tare_rule line st)) = issuer (st_record st).
Proof. revert st. issuer_tac. Qed.

Lemma net_rule_issuer line st : issuer (st_record (net_rule line st)) = issuer (st_record st).
Proof. revert st. issuer_tac. Qed.

Lemma deduction_rule_issuer line st : issuer (st_record (deduction_rule line st)) = issuer (st_record st).
Proof. revert st. issuer_tac. Qed.

Lemma timestamp_gps_rule_issuer line st : issuer (st_record (timestamp_gps_rule line st)) = issuer (st_record st).
Proof. revert st. issuer_tac. Qed.

Lemma candidate_rule_issuer idx line st :
  issuer (st_record (candidate_rule idx line st)) = issuer (st_record st).
Proof. revert st. issuer_tac. Qed.

End Rules.

(** ** Weights through the pipeline *)

Section PipelineWeights.

Context {py : PyLib}.

Lemma fold_left_invariant {A B} (P : A -> Prop) (f : A -> B -> A) (l : list B) (a : A) :
  (forall x y, P x -> P (f x y)) -> P a -> P (fold_left f l a).
Proof.
  intros Hf. revert a. induction l as [|y l IH]; intros a Ha; simpl; auto.
Qed.





















End PipelineWeights.



(** ** First writer wins *)

Section FirstWriter.

Context {py : PyLib}.

Lemma kept_str_trans (x y z : option str) : kept_str x y -> kept_str y z -> kept_str x z.
Proof. intros H1 H2 Hx. specialize (H1 Hx). subst y. exact (H2 Hx). Qed.

Lemma kept_value_trans {A : Type} (x y z : option A) :
  kept_value x y -> kept_value y z -> kept_value x z.
Proof. intros H1 H2 Hx. specialize (H1 Hx). subst y. exact (H2 Hx). Qed.

Lemma kept_weight_trans (x y z : option float) :
  kept_weight x y -> kept_weight y z -> kept_weight x z.
Proof. intros H1 H2 Hx. specialize (H1 Hx). subst y. exact (H2 Hx). Qed.

Lemma kept_value_weight (x y : option float) : kept_value x y -> kept_weight x y.
Proof. intros H Hx. apply H. now destruct x. Qed.

Lemma fields_kept_refl (weight : option float -> option float -> Prop) (r : ParsedRecord) :
  (forall x, weight x x) -> fields_kept weight r r.
Proof. intros Hw. unfold fields_kept, kept_str, kept_value. repeat split; auto. Qed.

Lemma fields_kept_trans (weight : option float -> option float -> Prop)
    (r1 r2 r3 : ParsedRecord) :
  (forall x y z, weight x y -> weight y z -> weight x z) ->
  fields_kept weight r1 r2 -> fields_kept weight r2 r3 -> fields_kept weight r1 r3.
Proof.
  intros Hw H12 H23. unfold fields_kept in *.
  destruct H12 as (A1 & A2 & A3 & A4 & A5 & A6 & A7 & A8 & A9 & A10 & A11 & A12 & A13
                   & A14 & A15 & A16).
  destruct H23 as (B1 & B2 & B3 & B4 & B5 & B6 & B7 & B8 & B9 & B10 & B11 & B12 & B13
                   & B14 & B15 & B16).
  repeat split;
    first [ congruence | eapply kept_str_trans; eassumption
          | eapply kept_value_trans; eassumption | eapply Hw; eassumption ].
Qed.

Lemma fields_kept_weaken (r r' : ParsedRecord) :
  first_writer_wins r r' -> fields_kept kept_weight r r'.
Proof.
  unfold first_writer_wins, fields_kept.
  intros (A1 & A2 & A3 & A4 & A5 & A6 & A7 & A8 & A9 & A10 & A11 & A12 & A13 & A14 & A15
          & A16).
  repeat split; try assumption; now apply kept_value_weight.
Qed.

Lemma first_writer_wins_trans (r1 r2 r3 : ParsedRecord) :
  first_writer_wins r1 r2 -> first_writer_wins r2 r3 -> first_writer_wins r1 r3.
Proof. apply fields_kept_trans. intros x y z. apply kept_value_trans. Qed.

Lemma kept_step (rule : assembly -> assembly) (r : ParsedRecord) (st : assembly) :
  (forall x, first_writer_wins (st_record x) (st_record (rule x))) ->
  first_writer_wins r (st_record st) -> first_writer_wins r (st_record (rule st)).
Proof. intros Hrule H. eapply first_writer_wins_trans; [exact H|apply Hrule]. Qed.

(** One line of the loop overwrites no set field but the direction. *)
Lemma parse_line_kept (st : assembly) (il : nat * LineInfo) :
  first_writer_wins (st_record st) (st_record (parse_line st il)).
Proof.
  destruct il as [idx line]. unfold parse_line. cbv zeta.
  apply (kept_step (timestamp_gps_rule line)); [exact (timestamp_gps_rule_kept line)|].
  apply (kept_step (candidate_rule idx line)); [exact (candidate_rule_kept idx line)|].
  apply (kept_step (deduction_rule line)); [exact (deduction_rule_kept line)|].
  apply (kept_step (net_rule line)); [exact (net_rule_kept line)|].
  apply (kept_step (tare_rule line)); [exact (tare_rule_kept line)|].
  apply (kept_step (gross_rule line)); [exact (gross_rule_kept line)|].
  apply (kept_step (weak_direction_rule line)); [exact (weak_direction_rule_kept line)|].
  apply (kept_step (direction_rule line)); [exact (direction_rule_kept line)|].
  apply (kept_step (item_rule line)); [exact (item_rule_kept line)|].
  apply (kept_step (item_direction_rule line)); [exact (item_direction_rule_kept line)|].
  apply (kept_step (partner_rule line)); [exact (partner_rule_kept line)|].
  apply (kept_step (vehicle_rule line)); [exact (vehicle_rule_kept line)|].
  apply (kept_step (serial_rule line)); [exact (serial_rule_kept line)|].
  apply (kept_step (date_rule line)); [exact (date_rule_kept line)|].
  apply (kept_step (salutation_rule line)); [exact (salutation_rule_kept line)|].
  apply fields_kept_refl. intros x _. reflexivity.
Qed.

Lemma parse_lines_kept (lines : list (nat * LineInfo)) (st : assembly) :
  first_writer_wins (st_record st) (st_record (fold_left parse_line lines st)).
Proof.
  revert st. induction lines as [|il lines IH]; intros st; simpl.
  - apply fields_kept_refl. intros x _. reflexivity.
  - eapply first_writer_wins_trans; [apply parse_line_kept|apply IH].
Qed.

Lemma assemble_after_upto (n : nat) (preprocessed : PreprocessResult) :
  assemble preprocessed
  = fold_left parse_line (skipn n (enumerate (line_infos preprocessed)))
      (assemble_upto n preprocessed).
Proof.
  unfold assemble, assemble_upto. rewrite <- fold_left_app. now rewrite firstn_skipn.
Qed.

Lemma parse_line_issuer (st : assembly) (il : nat * LineInfo) :
  issuer (st_record (parse_line st il)) = issuer (st_record st).
Proof.
  destruct il as [idx line]. unfold parse_line.
  rewrite timestamp_gps_rule_issuer, candidate_rule_issuer, deduction_rule_issuer,
    net_rule_issuer, tare_rule_issuer, gross_rule_issuer, weak_direction_rule_issuer,
    direction_rule_issuer, item_rule_issuer, item_direction_rule_issuer,
    partner_rule_issuer, vehicle_rule_issuer, serial_rule_issuer, date_rule_issuer,
    salutation_rule_issuer.
  reflexivity.
Qed.

Lemma assemble_issuer (preprocessed : PreprocessResult) :
  issuer (st_record (assemble preprocessed)) = None.
Proof.
  unfold assemble.
  apply (fold_left_invariant (fun st => issuer (st_record st) = None)); [|reflexivity].
  intros st il H. now rewrite parse_line_issuer.
Qed.

Lemma infer_gross_kept (st : assembly) :
  fields_kept kept_weight (st_record st) (st_record (infer_gross st)).
Proof.
  unfold infer_gross. destruct (st_candidates st) as [|[[t w] i] cs];
    [apply fields_kept_refl; now intros x|].
  destruct (float_set_and_nonzero _) eqn:E; [apply fields_kept_refl; now intros x|].
  unfold fields_kept, kept_str, kept_value, kept_weight, or_str. cbn.
  repeat split; try reflexivity; try congruence.
  unfold str_set_and_nonempty. destruct (weigh_time_in (st_record st)) as [[|c s]|];
    try discriminate. reflexivity.
Qed.

Lemma infer_tare_kept (st : assembly) :
  fields_kept kept_weight (st_record st) (st_record (infer_tare st)).
Proof.
  unfold infer_tare. destruct (st_candidates st) as [|c0 [|[[t w] i] cs]];
    try (apply fields_kept_refl; now intros x).
  destruct (float_set_and_nonzero _) eqn:E; [apply fields_kept_refl; now intros x|].
  unfold fields_kept, kept_str, kept_value, kept_weight, or_str. cbn.
  repeat split; try reflexivity; try congruence.
  unfold str_set_and_nonempty. destruct (weigh_time_out (st_record st)) as [[|c s]|];
    try discriminate. reflexivity.
Qed.

(** The pass after the loop overwrites no set field, a gross or tare weight
    of 0 kg apart. *)
Lemma post_pass_kept (preprocessed : PreprocessResult) :
  fields_kept kept_weight (st_record (assemble preprocessed))
    (fst (parse_preprocessed preprocessed)).
Proof.
  unfold parse_preprocessed. cbn [fst].
  set (st := assemble preprocessed).
  assert (fields_kept kept_weight (st_record st) (st_record (infer_tare (infer_gross st))))
    as H.
  { eapply fields_kept_trans; [exact kept_weight_trans|apply infer_gross_kept
                              |apply infer_tare_kept]. }
  destruct (find_issuer _) as [[|i0 found]|]; try exact H.
  pose proof (assemble_issuer preprocessed) as Hi. fold st in Hi.
  unfold fields_kept in *.
  destruct H as (A1 & A2 & A3 & A4 & A5 & A6 & A7 & A8 & A9 & A10 & A11 & A12 & A13 & A14
                 & A15 & A16).
  cbn. repeat split; try assumption.
  unfold kept_str. rewrite Hi. discriminate.
Qed.

(** First writer wins in the loop: a field other than the direction that is
    set after some lines, to a string that is not empty or to a number, has
    the same value after the last line. *)
Theorem first_writer_wins_in_loop (n : nat) (preprocessed : PreprocessResult) :
  first_writer_wins (st_record (assemble_upto n preprocessed))
    (st_record (assemble preprocessed)).
Proof. rewrite (assemble_after_upto n). apply parse_lines_kept. Qed.

(** First writer wins through the pass after the loop, where no weight is
    0 kg: a field other than the direction that is set after some lines has
    the same value in the record that [parse_preprocessed] returns, a gross
    or tare weight under the condition that it is not 0 kg. *)
Theorem set_fields_survive_parse_preprocessed (n : nat) (preprocessed : PreprocessResult) :
  fields_kept kept_weight (st_record (assemble_upto n preprocessed))
    (fst (parse_preprocessed preprocessed)).
Proof.
  eapply fields_kept_trans; [exact kept_weight_trans| |apply post_pass_kept].
  apply fields_kept_weaken. rewrite (assemble_after_upto n). apply parse_lines_kept.
Qed.

End FirstWriter.

(** ** Deferred pairing of times and weights *)

Section DeferredPairing.

Context {py : PyLib}.

Lemma exact_fold_some (text : str) (labels : list str) (b : (nat * nat) * str) :
  fold_left (exact_step text) labels (Some b) <> None.
Proof.
  revert b. induction labels as [|label labels IH]; intros b; simpl; [discriminate|].
  unfold exact_step at 2. destruct b as [best_span best_label].
  destruct (search _ text) as [m|]; [|apply IH].
  destruct (Nat.ltb _ _); apply IH.
Qed.

Lemma exact_fold_none (text : str) (labels : list str) :
  fold_left (exact_step text) labels None = None ->
  Forall (fun label => search (build_label_regex label) text = None) labels.
Proof.
  induction labels as [|label labels IH]; simpl; [constructor|].
  unfold exact_step at 2. destruct (search _ text) as [m|] eqn:E.
  - intros H. now apply exact_fold_some in H.
  - intros H. constructor; auto.
Qed.

Lemma find_label_span_none (text : str) (labels : list str) :
  best_label_span text labels = None -> find_label_span text labels = None.
Proof.
  unfold best_label_span. destruct (fold_left (exact_step text) labels None) eqn:E;
    [discriminate|]. intros _. apply exact_fold_none in E.
  unfold find_label_span. generalize (@None (nat * nat)).
  induction E as [|label labels H _ IH]; intros best; simpl; [reflexivity|].
  rewrite H. apply IH.
Qed.

Lemma unlabeled_has_no_weight_label (line : LineInfo) :
  unlabeled line -> has_weight_label line = false.
Proof.
  intros (Hg & Ht & Hn & Hd). unfold has_weight_label. cbn [existsb].
  now rewrite !find_label_span_none.
Qed.

Lemma select_without_label (line : LineInfo) (key : string) (st : assembly) :
  best_label_span (cleaned line) (labels key) = None -> select line key st = (None, st).
Proof.
  intros H. unfold select, select_value_after_label. rewrite H. now destruct st.
Qed.

(** No weight rule does anything on an unlabeled line. *)
Lemma weight_rules_unlabeled (line : LineInfo) (st : assembly) :
  unlabeled line ->
  deduction_rule line (net_rule line (tare_rule line (gross_rule line st))) = st.
Proof.
  intros (Hg & Ht & Hn & Hd). unfold deduction_rule, net_rule, tare_rule, gross_rule.
  now rewrite !select_without_label.
Qed.

Lemma extract_time_nonempty (text t : str) : extract_time text = Some t -> t <> [].
Proof.
  unfold extract_time. intros H.
  repeat match type of H with
         | context [match ?x with _ => _ end] => destruct x
         end;
    try discriminate; injection H as <-;
    match goal with |- ?a ++ _ <> [] => destruct a; discriminate end.
Qed.

Lemma frame_compose (f g : assembly -> assembly) :
  frame f -> frame g -> frame (fun st => g (f st)).
Proof.
  intros Hf Hg st. destruct (Hf st) as [F1 F2]. destruct (Hg (f st)) as [G1 G2].
  split; congruence.
Qed.

Lemma head_rules_frame (line : LineInfo) : frame (head_rules line).
Proof.
  intros st. unfold head_rules.
  destruct (salutation_rule_frame line st) as [M1 C1].
  set (s1 := salutation_rule line st) in *.
  destruct (date_rule_frame line s1) as [M2 C2]. set (s2 := date_rule line s1) in *.
  destruct (serial_rule_frame line s2) as [M3 C3]. set (s3 := serial_rule line s2) in *.
  destruct (vehicle_rule_frame line s3) as [M4 C4]. set (s4 := vehicle_rule line s3) in *.
  destruct (partner_rule_frame line s4) as [M5 C5]. set (s5 := partner_rule line s4) in *.
  destruct (item_direction_rule_frame line s5) as [M6 C6].
  set (s6 := item_direction_rule line s5) in *.
  destruct (item_rule_frame line s6) as [M7 C7]. set (s7 := item_rule line s6) in *.
  destruct (direction_rule_frame line s7) as [M8 C8]. set (s8 := direction_rule line s7) in *.
  destruct (weak_direction_rule_frame line s8) as [M9 C9].
  split; congruence.
Qed.

Lemma parse_line_head_rules (st : assembly) (idx : nat) (line : LineInfo) :
  parse_line st (idx, line)
  = timestamp_gps_rule line (candidate_rule idx line (deduction_rule line (net_rule line
      (tare_rule line (gross_rule line (head_rules line st)))))).
Proof. reflexivity. Qed.

(** A line with a bare time and weight adds its candidate and changes no
    weight and no weighing time. *)
Lemma parse_line_timed_weight (st : assembly) (idx : nat) (line : LineInfo) (t : str)
    (w : float) :
  timed_weight_line line t w ->
  measures (st_record (parse_line st (idx, line))) = measures (st_record st)
  /\ st_candidates (parse_line st (idx, line)) = st_candidates st ++ [(t, w, idx)].
Proof.
  intros (Hu & Et & Ew & Tw). rewrite parse_line_head_rules, weight_rules_unlabeled by exact Hu.
  destruct (head_rules_frame line st) as [M C].
  destruct (timestamp_gps_rule_frame line (candidate_rule idx line (head_rules line st)))
    as [M' C'].
  rewrite M', C'. unfold candidate_rule.
  rewrite (unlabeled_has_no_weight_label line Hu), Et, Ew, Tw.
  pose proof (extract_time_nonempty _ _ Et) as Ht. destruct t as [|c t]; [now elim Ht|].
  unfold with_candidate. cbn [st_record st_candidates].
  rewrite M. rewrite C. split; reflexivity.
Qed.

(** The state after the loop over three such lines. *)
Lemma assemble_three_timed_weights (preprocessed : PreprocessResult)
    (l1 l2 l3 : LineInfo) (t1 t2 t3 : str) (w1 w2 w3 : float) :
  line_infos preprocessed = [l1; l2; l3] ->
  timed_weight_line l1 t1 w1 -> timed_weight_line l2 t2 w2 -> timed_weight_line l3 t3 w3 ->
  measures (st_record (assemble preprocessed)) = (None, None, None, None, None, None)
  /\ st_candidates (assemble preprocessed) = [(t1, w1, 0); (t2, w2, 1); (t3, w3, 2)].
Proof.
  intros E H1 H2 H3. unfold assemble. rewrite E. cbn [enumerate length seq combine fold_left].
  set (st0 := initial_assembly preprocessed).
  destruct (parse_line_timed_weight st0 0 l1 t1 w1 H1) as [M1 C1].
  set (st1 := parse_line st0 (0, l1)) in *.
  destruct (parse_line_timed_weight st1 1 l2 t2 w2 H2) as [M2 C2].
  set (st2 := parse_line st1 (1, l2)) in *.
  destruct (parse_line_timed_weight st2 2 l3 t3 w3 H3) as [M3 C3].
  rewrite M3, M2, M1, C3, C2, C1. split; reflexivity.
Qed.

(** Deferred pairing where no weight is 0 kg: of three unlabeled lines with a
    bare time and a bare weight each, the first gives the gross weight and
    the time of the first weighing, the second the tare weight and the time
    of the second weighing, each with its warning; the third candidate is
    buffered and used for neither; the finalizer then computes the net weight
    and adds its warning. *)
Theorem deferred_pairing_of_nonzero_weights (preprocessed : PreprocessResult)
    (l1 l2 l3 : LineInfo) (t1 t2 t3 : str) (w1 w2 w3 : float) :
  line_infos preprocessed = [l1; l2; l3] ->
  timed_weight_line l1 t1 w1 -> timed_weight_line l2 t2 w2 -> timed_weight_line l3 t3 w3 ->
  st_candidates (assemble preprocessed) = [(t1, w1, 0); (t2, w2, 1); (t3, w3, 2)]
  /\ measures (fst (parse_preprocessed preprocessed))
     = (Some w1, Some w2, None, None, Some t1, Some t2)
  /\ has_warning (snd (parse_preprocessed preprocessed))
       (u "gross_inferred_from_time_weight") = true
  /\ has_warning (snd (parse_preprocessed preprocessed))
       (u "tare_inferred_from_time_weight") = true
  /\ measures (finalize_record (fst (parse_preprocessed preprocessed))
                 (snd (parse_preprocessed preprocessed)))
     = (Some w1, Some w2, Some (w1 - w2)%float, None, Some t1, Some t2)
  /\ has_warning (warnings (finalize_record (fst (parse_preprocessed preprocessed))
                              (snd (parse_preprocessed preprocessed))))
       (u "net_inferred_from_gross_tare") = true.
Proof.
  intros E H1 H2 H3.
  destruct (assemble_three_timed_weights preprocessed l1 l2 l3 t1 t2 t3 w1 w2 w3 E H1 H2 H3)
    as [M C].
  split; [exact C|].
  assert (measures (fst (parse_preprocessed preprocessed))
          = (Some w1, Some w2, None, None, Some t1, Some t2)
          /\ has_warning (snd (parse_preprocessed preprocessed))
               (u "gross_inferred_from_time_weight") = true
          /\ has_warning (snd (parse_preprocessed preprocessed))
               (u "tare_inferred_from_time_weight") = true) as (Mp & Wg & Wt).
  { unfold parse_preprocessed. cbn [fst snd].
    set (st := assemble preprocessed) in *. unfold measures in M.
    injection M as Mg Mt Mn Md Mi Mo.
    assert (measures (st_record (infer_gross st))
            = (Some w1, None, None, None, Some t1, None)
            /\ st_candidates (infer_gross st) = [(t1, w1, 0); (t2, w2, 1); (t3, w3, 2)]
            /\ has_warning (st_warnings (infer_gross st))
                 (u "gross_inferred_from_time_weight") = true) as (Mg' & Cg & Wg).
    { unfold infer_gross. rewrite C, Mg. cbn [float_set_and_nonzero]. split; [|split].
      - unfold measures. cbn. now rewrite Mt, Mn, Md, Mi, Mo.
      - exact C.
      - cbn [with_warnings st_warnings]. apply has_warning_add_warning. }
    set (sg := infer_gross st) in *. clearbody sg. unfold measures in Mg'.
    injection Mg' as Gg Gt Gn Gd Gi Go.
    assert (measures (st_record (infer_tare sg))
            = (Some w1, Some w2, None, None, Some t1, Some t2)
            /\ has_warning (st_warnings (infer_tare sg))
                 (u "gross_inferred_from_time_weight") = true
            /\ has_warning (st_warnings (infer_tare sg))
                 (u "tare_inferred_from_time_weight") = true) as (Mt' & Wg' & Wt').
    { unfold infer_tare. rewrite Cg, Gt. cbn [float_set_and_nonzero]. split; [|split].
      - unfold measures. cbn. now rewrite Gg, Gn, Gd, Gi, Go.
      - cbn [with_warnings st_warnings].
        eapply has_warning_mono; [intros w; apply add_warning_mono|exact Wg].
      - cbn [with_warnings st_warnings]. apply has_warning_add_warning. }
    split; [|split; assumption].
    destruct (find_issuer _) as [[|i0 issuer]|]; exact Mt'. }
  split; [exact Mp|]. split; [exact Wg|]. split; [exact Wt|].
  set (record := fst (parse_preprocessed preprocessed)) in *.
  set (ws := snd (parse_preprocessed preprocessed)) in *. clearbody record ws.
  unfold measures in Mp. injection Mp as Mg Mt Mn Md Mi Mo.
  destruct H1 as (_ & _ & _ & T1). destruct H2 as (_ & _ & _ & T2).
  rewrite finalize_record_eq. cbv zeta. unfold infer_net. rewrite Mn, Mg, Mt, T1, T2.
  cbn [andb fst snd]. split.
  - unfold measures. cbn. now rewrite Mg, Mt, Md, Mi, Mo.
  - eapply has_warning_mono; [intros w; apply check_net_mono|].
    apply has_warning_add_warning.
Qed.

End DeferredPairing.

Lemma deferred_pairing_of_nonzero_weights_witness :
  measures (finalize_record (fst (parse_preprocessed (preprocessed_lines three_pairs_lines)))
              (snd (parse_preprocessed (preprocessed_lines three_pairs_lines))))
  = (Some 1000%float, Some 800%float, Some (1000 - 800)%float, None,
     Some (u "01:00"), Some (u "01:10")).
Proof.
  refine (proj1 (proj2 (proj2 (proj2 (proj2
    (deferred_pairing_of_nonzero_weights (preprocessed_lines three_pairs_lines)
       (line_info_of (u "01:00 1,000 kg")) (line_info_of (u "01:10 800 kg"))
       (line_info_of (u "01:20 900 kg"))
       (u "01:00") (u "01:10") (u "01:20") 1000%float 800%float 900%float _ _ _ _))))));
    vm_compute; repeat split.
Defined.

(** ** Weights of 0 kg in the pass after the loop *)

(** C2 at a gross weight of 0 kg: the loop sets the gross weight to 0.0 from
    the labelled line, and the pass after the loop puts the weight of the
    first candidate in its place, with the time of the candidate and the
    warning of an inferred gross weight. *)
Theorem zero_gross_overwritten_by_candidate (py : PyLib) :
  gross_weight_kg (st_record (assemble (preprocessed_lines zero_gross_lines))) = Some 0%float
  /\ st_candidates (assemble (preprocessed_lines zero_gross_lines)) = [(u "01:00", 500%float, 1)]
  /\ gross_weight_kg (fst (parse_preprocessed (preprocessed_lines zero_gross_lines)))
     = Some 500%float
  /\ weigh_time_in (fst (parse_preprocessed (preprocessed_lines zero_gross_lines)))
     = Some (u "01:00")
  /\ has_warning (snd (parse_preprocessed (preprocessed_lines zero_gross_lines)))
       (u "gross_inferred_from_time_weight") = true.
Proof. vm_compute. repeat split. Qed.

(** C3 at a second line of 0 kg: the line has a time and a weight, yet it is
    no candidate, so the third line gives the tare weight and the time of
    the second weighing. *)
Theorem zero_weight_line_is_no_candidate (py : PyLib) :
  extract_time (u "01:10 0 kg") = Some (u "01:10")
  /\ extract_weight (u "01:10 0 kg") = Some 0%float
  /\ st_candidates (assemble (preprocessed_lines zero_second_lines))
     = [(u "01:00", 1000%float, 0); (u "01:20", 900%float, 2)]
  /\ gross_weight_kg (fst (parse_preprocessed (preprocessed_lines zero_second_lines)))
     = Some 1000%float
  /\ tare_weight_kg (fst (parse_preprocessed (preprocessed_lines zero_second_lines)))
     = Some 900%float
  /\ weigh_time_out (fst (parse_preprocessed (preprocessed_lines zero_second_lines)))
     = Some (u "01:20")
  /\ has_warning (snd (parse_preprocessed (preprocessed_lines zero_second_lines)))
       (u "tare_inferred_from_time_weight") = true.
Proof. vm_compute. repeat split. Qed.
